(** * jbi.actions: the default action and its assignee/status variant

    A shallow embedding of [jbi/actions/default.py] and
    [jbi/actions/default_with_assignee_and_status.py].

    The two executors talk to Bugzilla and Jira through client objects.  Every
    client method call is recorded in a trace, and answered by a [World]: a
    function from the calls made so far and the current call to either a
    returned value or a raised exception.  The executors' methods are
    computations in a trace/exception monad [M] over such a world. *)

From stdpp Require Import base option list gmap strings.
From Stdlib Require Import ZArith Ascii String DecimalString Lia.

Local Open Scope string_scope.
Local Open Scope list_scope.

Set Warnings "-register-all".

(** ** Python values *)

(** JSON-like values exchanged with the Jira client. *)
Inductive pyval : Type :=
| PyNone
| PyBool (b : bool)
| PyInt (z : Z)
| PyStr (s : string)
| PyList (l : list pyval)
| PyDict (d : list (string * pyval)).

(** A [dict] keeps its items in insertion order. *)
Abbreviation dict := (list (string * pyval)).

(** [bool(v)]: what [if v:] and [a and v] test. *)
Definition truthy (v : pyval) : bool :=
  match v with
  | PyNone => false
  | PyBool b => b
  | PyInt z => negb (z =? 0)%Z
  | PyStr s => negb (String.eqb s "")
  | PyList l => match l with [] => false | _ :: _ => true end
  | PyDict d => match d with [] => false | _ :: _ => true end
  end.

(** [bool(s)] for a [str]. *)
Definition str_truthy (s : string) : bool := negb (String.eqb s "").

(** [bool(o)] for an [Optional[str]]. *)
Definition opt_truthy (o : option string) : bool :=
  match o with
  | None => false
  | Some s => str_truthy s
  end.

(** [d.get(k)] as an option; [dict_get_default] is Python's [d.get(k)],
    which answers [None] for a missing key. *)
Fixpoint dict_get (k : string) (d : dict) : option pyval :=
  match d with
  | [] => None
  | (k', v) :: d' => if String.eqb k k' then Some v else dict_get k d'
  end.

Definition dict_get_default (k : string) (d : dict) : pyval :=
  match dict_get k d with
  | Some v => v
  | None => PyNone
  end.

(** [d[k] = v]: an existing key keeps its place, a new key goes last. *)
Fixpoint dict_set (k : string) (v : pyval) (d : dict) : dict :=
  match d with
  | [] => [(k, v)]
  | (k', v') :: d' =>
      if String.eqb k k' then (k', v) :: d' else (k', v') :: dict_set k v d'
  end.

(** [d.keys()]. *)
Definition dict_keys (d : dict) : list string := map fst d.

(** [x in l] for a list of strings. *)
Definition str_in (x : string) (l : list string) : bool :=
  existsb (String.eqb x) l.

(** [v == s] where [s] is a [str]: only an equal [str] compares equal. *)
Definition py_eq_str (v : pyval) (s : string) : bool :=
  match v with
  | PyStr s' => String.eqb s' s
  | _ => false
  end.

(** [o == s] for an [Optional[str]] and a [str]. *)
Definition opt_eq_str (o : option string) (s : string) : bool :=
  match o with
  | Some s' => String.eqb s' s
  | None => false
  end.

(** [a or b] for two [Optional[str]]. *)
Definition py_or (a b : option string) : option string :=
  if opt_truthy a then a else b.

(** An [Optional[str]] as a value. *)
Definition of_opt_str (o : option string) : pyval :=
  match o with
  | Some s => PyStr s
  | None => PyNone
  end.

(** [s[:n]]: the first [n] characters of [s], all of [s] when it is
    shorter.  An element of a [string] stands for one character of the
    Python [str]. *)
Definition str_prefix (n : N) (s : string) : string :=
  substring 0 (N.to_nat n) s.

(** ** Exceptions *)

Inductive exn : Type :=
| ActionError (response : pyval)     (* jbi.errors.ActionError *)
| IOError (msg : string)             (* IOError and its subclasses *)
| IndexError
| KeyError (k : pyval)
| TypeError
| AttributeError
| OtherError (name : string).        (* any other exception class *)

(** [isinstance(e, IOError)], the test of [except IOError]. *)
Definition is_IOError (e : exn) : bool :=
  match e with
  | IOError _ => true
  | _ => false
  end.

Inductive outcome (A : Type) : Type :=
| Returns (a : A)
| Raises (e : exn).
Arguments Returns {A} a.
Arguments Raises {A} e.

(** The outcome of a statement whose value is dropped. *)
Definition discard {A} (o : outcome A) : outcome unit :=
  match o with
  | Returns _ => Returns tt
  | Raises e => Raises e
  end.

(** ** jbi.models (the attributes the actions read) *)

Record BugzillaComment := {
  text : string;
}.

Record BugzillaWebhookComment := {
  body : option string;
  comment_id : option Z;
}.

Record BugzillaBug := {
  id : Z;
  summary : option string;
  status : option string;
  resolution : option string;
  assigned_to : option string;
  whiteboard : option string;
  see_also : option (list string);
  comment : option BugzillaWebhookComment;
}.

Record BugzillaWebhookEvent := {
  target : option string;
  routing_key : option string;
  changes : option (list (string * string * string));
}.

(** The methods of [BugzillaBug] and [BugzillaWebhookEvent] that the actions
    call.  They are defined in [jbi.models]; the actions only rely on their
    result types. *)
Class Models := {
  extract_from_see_also : BugzillaBug → option string;
  get_jira_labels : BugzillaBug → list string;
  issue_type : BugzillaBug → string;
  map_event_as_comment : BugzillaBug → BugzillaWebhookEvent → string;
  (* the two keyword arguments are [None] when the caller leaves them out *)
  map_changes_as_comments :
    BugzillaBug → BugzillaWebhookEvent → option bool → option bool → list string;
  changed_fields : BugzillaWebhookEvent → option (list string);
}.

(** The two settings read from [jbi.environment.get_settings()], and
    Python's formatting of a value inside an f-string ([py_format], used for
    the issue key and the bug id in the two URLs). *)
Class Settings := {
  jira_base_url : string;
  bugzilla_base_url : string;
  py_format : pyval → string;
}.

(** ** The remote clients *)

Inductive call : Type :=
| get_comments (bug_id : Z)
| get_bug (bug_id : Z)
| update_bug (bug_id : Z) (see_also_add : list string)
| create_issue (fields : dict)
| update_issue_field (key : pyval) (fields : dict)
| issue_add_comment (issue_key : pyval) (comment_text : string)
| delete_issue (issue_id_or_key : pyval)
| set_issue_status (issue_key : pyval) (status_name : string)
| create_or_update_issue_remote_links (issue_key : pyval) (link_url title : string)
| user_find_by_user_string (query : option string).

(** What each client method returns: the Bugzilla client returns models, the
    Jira client the decoded JSON of the response. *)
Definition resp (c : call) : Type :=
  match c with
  | get_comments _ => list BugzillaComment
  | get_bug _ => BugzillaBug
  | _ => pyval
  end.

(** The remote systems: the answer to a call, given the calls made before. *)
Definition World : Type := list call → ∀ c : call, outcome (resp c).

(** ** The trace/exception monad *)

Definition M (A : Type) : Type := World → list call → list call * outcome A.

Definition run {A} (m : M A) (w : World) (h : list call) : list call * outcome A :=
  m w h.

Global Instance M_ret : MRet M := λ A a, λ _ h, (h, Returns a).

Global Instance M_bind : MBind M := λ A B f m, λ w h,
  match m w h with
  | (h', Returns a) => f a w h'
  | (h', Raises e) => (h', Raises e)
  end.

(** [raise e]. *)
Definition raise {A} (e : exn) : M A := λ _ h, (h, Raises e).

(** A client method call: recorded, then answered by the world. *)
Definition remote (c : call) : M (resp c) := λ w h, (h ++ [c], w h c).

(** [try: m / except IOError: handler]. *)
Definition try_except_IOError {A} (m : M A) (handler : exn → M A) : M A := λ w h,
  match m w h with
  | (h', Returns a) => (h', Returns a)
  | (h', Raises e) => if is_IOError e then handler e w h' else (h', Raises e)
  end.

(** [for x in l: acc.append(f(x))]. *)
Fixpoint for_append {A B} (f : A → M B) (l : list A) : M (list B) :=
  match l with
  | [] => mret []
  | x :: l' => r ← f x; rs ← for_append f l'; mret (r :: rs)
  end.

(** ** Python operations that may raise *)

(** [l[0]] on a list of models. *)
Definition first_item {A} (l : list A) : M A :=
  match l with
  | x :: _ => mret x
  | [] => raise IndexError
  end.

(** [len(v)]. *)
Definition py_len (v : pyval) : M nat :=
  match v with
  | PyStr s => mret (String.length s)
  | PyList l => mret (List.length l)
  | PyDict d => mret (List.length d)
  | _ => raise TypeError
  end.

(** [v[0]]. *)
Definition py_item0 (v : pyval) : M pyval :=
  match v with
  | PyList (x :: _) => mret x
  | PyList [] => raise IndexError
  | PyStr (String a _) => mret (PyStr (String a EmptyString))
  | PyStr EmptyString => raise IndexError
  | PyDict _ => raise (KeyError (PyInt 0))
  | _ => raise TypeError
  end.

(** [v[k]] for a [str] key [k]. *)
Definition py_item (v : pyval) (k : string) : M pyval :=
  match v with
  | PyDict d =>
      match dict_get k d with
      | Some x => mret x
      | None => raise (KeyError (PyStr k))
      end
  | _ => raise TypeError
  end.

(** [v.get(k)]: only a dict has the method. *)
Definition py_get (v : pyval) (k : string) : M pyval :=
  match v with
  | PyDict d => mret (dict_get_default k d)
  | _ => raise AttributeError
  end.

(** ** jbi/actions/default.py *)

Definition JIRA_DESCRIPTION_CHAR_LIMIT : N := 32767.

(** [ActionResult]: did something happen, and the remote responses. *)
Definition ActionResult : Type := bool * dict.

(** The two executor classes; the subclass carries its two mapping tables. *)
Inductive ExecutorClass : Type :=
| DefaultExecutor
| AssigneeAndStatusExecutor (status_map resolution_map : gmap string string).

(** The attributes set by [__init__]. *)
Record Executor := {
  class_of : ExecutorClass;
  jira_project_key : string;
  sync_whiteboard_labels : bool;
}.

(** [m.get(k)] on a mapping table, for an [Optional[str]] key. *)
Definition map_get (m : gmap string string) (k : option string) : option string :=
  match k with
  | Some s => m !! s
  | None => None
  end.

Section Actions.
Context `{models : Models} `{settings : Settings}.

(** [DefaultExecutor.jira_fields]. *)
Definition jira_fields (self : Executor) (bug : BugzillaBug) : dict :=
  let fields := [("summary", of_opt_str (summary bug))] in
  if sync_whiteboard_labels self
  then dict_set "labels" (PyList (map PyStr (get_jira_labels bug))) fields
  else fields.

(** [jira_comments_for_update], overridden by the subclass. *)
Definition jira_comments_for_update
    (self : Executor) (bug : BugzillaBug) (event : BugzillaWebhookEvent) : list string :=
  match class_of self with
  | DefaultExecutor => map_changes_as_comments bug event None None
  | AssigneeAndStatusExecutor _ _ =>
      map_changes_as_comments bug event (Some false) (Some false)
  end.

(** *** jbi/actions/default_with_assignee_and_status.py *)

(** The local function [clear_assignee] of [update_issue]. *)
Definition clear_assignee (linked_issue_key : pyval) (is_new : bool) : M unit :=
  if negb is_new
  then _ ← remote (update_issue_field linked_issue_key [("assignee", PyNone)]); mret tt
  else mret tt.

(** The first [if] block of [AssigneeAndStatusExecutor.update_issue]. *)
Definition update_assignee
    (bug : BugzillaBug) (changed : list string)
    (linked_issue_key : pyval) (is_new : bool) : M unit :=
  if is_new || str_in "assigned_to" changed then
    if opt_eq_str (assigned_to bug) "nobody@mozilla.org" then
      clear_assignee linked_issue_key is_new
    else
      users ← remote (user_find_by_user_string (assigned_to bug));
      n ← py_len users;
      if Nat.eqb n 1 then
        try_except_IOError
          (user ← py_item0 users;
           account_id ← py_item user "accountId";
           _ ← remote (update_issue_field linked_issue_key
                         [("assignee", PyDict [("accountId", account_id)])]);
           mret tt)
          (λ _, clear_assignee linked_issue_key is_new)
      else clear_assignee linked_issue_key is_new
  else mret tt.

(** The second [if] block of [AssigneeAndStatusExecutor.update_issue]. *)
Definition update_status
    (sm rm : gmap string string)
    (bug : BugzillaBug) (changed : list string)
    (linked_issue_key : pyval) (is_new : bool) : M unit :=
  if is_new || str_in "status" changed || str_in "resolution" changed then
    let bz_resolution := resolution bug in
    let jira_resolution := map_get rm bz_resolution in
    _ ← match jira_resolution with
        | Some r =>
            if str_truthy r
            then _ ← remote (update_issue_field linked_issue_key
                               [("resolution", PyStr r)]); mret tt
            else mret tt
        | None => mret tt
        end;
    let bz_status := py_or bz_resolution (status bug) in
    let jira_status := map_get sm bz_status in
    match jira_status with
    | Some s =>
        if str_truthy s
        then _ ← remote (set_issue_status linked_issue_key s); mret tt
        else mret tt
    | None => mret tt
    end
  else mret tt.

(** [update_issue]: the hook of [DefaultExecutor] does nothing, the one of
    [AssigneeAndStatusExecutor] runs its two blocks in order. *)
Definition update_issue
    (self : Executor) (bug : BugzillaBug) (event : BugzillaWebhookEvent)
    (linked_issue_key : pyval) (is_new : bool) : M unit :=
  match class_of self with
  | DefaultExecutor => mret tt
  | AssigneeAndStatusExecutor sm rm =>
      let changed := default [] (changed_fields event) in
      _ ← update_assignee bug changed linked_issue_key is_new;
      update_status sm rm bug changed linked_issue_key is_new
  end.

(** *** jbi/actions/default.py, continued *)

(** [DefaultExecutor.comment_create_or_noop]. *)
Definition comment_create_or_noop
    (self : Executor) (bug : BugzillaBug) (event : BugzillaWebhookEvent) : M ActionResult :=
  let linked_issue_key := extract_from_see_also bug in
  if negb (opt_truthy linked_issue_key) then mret (false, [])
  else
    match comment bug with
    | None => mret (false, [])
    | Some _ =>
        let formatted_comment := map_event_as_comment bug event in
        jira_response ←
          remote (issue_add_comment (of_opt_str linked_issue_key) formatted_comment);
        mret (true, [("jira_response", jira_response)])
    end.

(** The [fields] dict built by [create_and_link_issue]. *)
Definition creation_fields
    (self : Executor) (bug : BugzillaBug) (description : string) : dict :=
  dict_set "project" (PyDict [("key", PyStr (jira_project_key self))])
    (dict_set "description" (PyStr description)
       (dict_set "issuetype" (PyDict [("name", PyStr (issue_type bug))])
          (jira_fields self bug))).

(** [if isinstance(r, list): r = r[0]]. *)
Definition first_if_list (r : pyval) : M pyval :=
  match r with
  | PyList l => first_item l
  | _ => mret r
  end.

(** The [any(...)] over the keys of a dict response. *)
Definition has_errors (d : dict) : bool :=
  existsb
    (λ element,
       str_in element ["errors"; "errorMessages"]
       && truthy (dict_get_default element d))
    (dict_keys d).

(** [if isinstance(r, dict): if any(...): raise ActionError(...)]. *)
Definition check_errors (r : pyval) : M unit :=
  match r with
  | PyDict d => if has_errors d then raise (ActionError r) else mret tt
  | _ => mret tt
  end.

(** [DefaultExecutor.create_and_link_issue], from the answer of
    [create_issue] on (lines 221 to 293). *)
Definition link_created_issue
    (self : Executor) (bug : BugzillaBug) (event : BugzillaWebhookEvent)
    (jira_response_create : pyval) : M ActionResult :=
  jira_response_create ← first_if_list jira_response_create;
  _ ← check_errors jira_response_create;
  jira_key_in_response ← py_get jira_response_create "key";
  bug ← remote (get_bug (id bug));
  let jira_key_in_bugzilla := extract_from_see_also bug in
  let _duplicate_creation_event :=
    match jira_key_in_bugzilla with
    | Some k => negb (py_eq_str jira_key_in_response k)
    | None => false
    end in
  if _duplicate_creation_event then
    jira_response_delete ← remote (delete_issue jira_key_in_response);
    mret (true, [("jira_response", jira_response_delete)])
  else
    let jira_url :=
      (jira_base_url ++ "browse/" ++ py_format jira_key_in_response)%string in
    bugzilla_response ← remote (update_bug (id bug) [jira_url]);
    let bugzilla_url :=
      (bugzilla_base_url ++ "/show_bug.cgi?id=" ++ py_format (PyInt (id bug)))%string in
    jira_response ←
      remote (create_or_update_issue_remote_links
                jira_key_in_response bugzilla_url bugzilla_url);
    _ ← update_issue self bug event jira_key_in_response true;
    mret (true, [("bugzilla_response", bugzilla_response);
                 ("jira_response", jira_response)]).

(** [DefaultExecutor.create_and_link_issue]: lines 196 to 219, then the
    rest. *)
Definition create_and_link_issue
    (self : Executor) (bug : BugzillaBug) (event : BugzillaWebhookEvent) : M ActionResult :=
  comment_list ← remote (get_comments (id bug));
  first_comment ← first_item comment_list;
  let description := str_prefix JIRA_DESCRIPTION_CHAR_LIMIT (text first_comment) in
  let fields := creation_fields self bug description in
  jira_response_create ← remote (create_issue fields);
  link_created_issue self bug event jira_response_create.

(** [DefaultExecutor.bug_create_or_update]. *)
Definition bug_create_or_update
    (self : Executor) (bug : BugzillaBug) (event : BugzillaWebhookEvent) : M ActionResult :=
  let linked_issue_key := extract_from_see_also bug in
  if negb (opt_truthy linked_issue_key) then create_and_link_issue self bug event
  else
    let key := of_opt_str linked_issue_key in
    jira_response_update ← remote (update_issue_field key (jira_fields self bug));
    let comments := jira_comments_for_update self bug event in
    jira_response_comments ← for_append (λ c, remote (issue_add_comment key c)) comments;
    _ ← update_issue self bug event key false;
    mret (true, [("jira_responses",
                  PyList [jira_response_update; PyList jira_response_comments])]).

(** [DefaultExecutor.__call__]. *)
Definition call_ (self : Executor) (bug : BugzillaBug) (event : BugzillaWebhookEvent)
    : M ActionResult :=
  if opt_eq_str (target event) "comment" then comment_create_or_noop self bug event
  else if opt_eq_str (target event) "bug" then bug_create_or_update self bug event
  else mret (false, []).

End Actions.

(** ** Observations on traces *)

(** [emits P m]: whatever the world answers, [m] only adds calls that satisfy
    [P] to the trace. *)
Definition emits {A} (P : call → Prop) (m : M A) : Prop :=
  ∀ (w : World) h, ∃ t, (run m w h).1 = h ++ t ∧ Forall P t.

(** The calls the hook of [AssigneeAndStatusExecutor] can make on [key]. *)
Definition is_hook_call (key : pyval) (c : call) : Prop :=
  (∃ query, c = user_find_by_user_string query)
  ∨ (∃ v, c = update_issue_field key [("assignee", v)])
  ∨ (∃ r, c = update_issue_field key [("resolution", PyStr r)])
  ∨ (∃ s, c = set_issue_status key s).

(** The text of a posted comment. *)
Definition posted_comment (c : call) : option string :=
  match c with
  | issue_add_comment _ comment_text => Some comment_text
  | _ => None
  end.

(** The [fields] payload of the calls that carry one. *)
Definition fields_of (c : call) : option dict :=
  match c with
  | create_issue fields => Some fields
  | update_issue_field _ fields => Some fields
  | _ => None
  end.

(** A call whose payload, if it has one, has no ["labels"] key. *)
Definition without_labels (c : call) : Prop :=
  ∀ fields, fields_of c = Some fields → dict_get "labels" fields = None.

(** The answer of [create_issue] is a record, or a list that starts with
    one. *)
Definition answers_record (response : pyval) (d : dict) : Prop :=
  response = PyDict d ∨ ∃ others, response = PyList (PyDict d :: others).

(** A call other than [create_issue]. *)
Definition not_create_issue (c : call) : Prop :=
  ∀ fields, c ≠ create_issue fields.

(** ** The rest of the two modules *)

Section Linking.
Context `{models : Models} `{settings : Settings}.

(** [DefaultExecutor.create_and_link_issue] from the second read of the bug
    on (lines 238 to 293), for the key found in the answer of
    [create_issue]: [link_created_issue] is the three checks of that answer
    followed by this. *)
Definition link_issue_key
    (self : Executor) (bug : BugzillaBug) (event : BugzillaWebhookEvent)
    (jira_key_in_response : pyval) : M ActionResult :=
  bug ← remote (get_bug (id bug));
  let jira_key_in_bugzilla := extract_from_see_also bug in
  let _duplicate_creation_event :=
    match jira_key_in_bugzilla with
    | Some k => negb (py_eq_str jira_key_in_response k)
    | None => false
    end in
  if _duplicate_creation_event then
    jira_response_delete ← remote (delete_issue jira_key_in_response);
    mret (true, [("jira_response", jira_response_delete)])
  else
    let jira_url :=
      (jira_base_url ++ "browse/" ++ py_format jira_key_in_response)%string in
    bugzilla_response ← remote (update_bug (id bug) [jira_url]);
    let bugzilla_url :=
      (bugzilla_base_url ++ "/show_bug.cgi?id=" ++ py_format (PyInt (id bug)))%string in
    jira_response ←
      remote (create_or_update_issue_remote_links
                jira_key_in_response bugzilla_url bugzilla_url);
    _ ← update_issue self bug event jira_key_in_response true;
    mret (true, [("bugzilla_response", bugzilla_response);
                 ("jira_response", jira_response)]).

End Linking.

(** [DefaultExecutor.__init__]: the project key, and
    [kwargs.get("sync_whiteboard_labels", True)], of which the actions only
    test the truth value.  The two [get_client()] calls build the client
    objects, which are the world here. *)
Definition DefaultExecutor_init
    (cls : ExecutorClass) (jira_project_key : string) (kwargs : dict) : Executor :=
  {| class_of := cls;
     jira_project_key := jira_project_key;
     sync_whiteboard_labels :=
       truthy (default (PyBool true) (dict_get "sync_whiteboard_labels" kwargs)) |}.

Module default.

(** [init(jira_project_key, sync_whiteboard_labels=True, **kwargs)] of
    [jbi/actions/default.py]; an argument left out is [None] here. *)
Definition init
    (jira_project_key : string) (sync_whiteboard_labels : option pyval)
    (kwargs : dict) : Executor :=
  DefaultExecutor_init DefaultExecutor jira_project_key
    (("sync_whiteboard_labels", default (PyBool true) sync_whiteboard_labels) :: kwargs).

End default.

Module default_with_assignee_and_status.

(** [init(status_map=None, resolution_map=None, **kwargs)] of
    [jbi/actions/default_with_assignee_and_status.py].  The project key
    reaches [DefaultExecutor.__init__] through [kwargs]; that call raises
    [TypeError] when it is missing. *)
Definition init
    (status_map resolution_map : option (gmap string string))
    (jira_project_key : option string) (kwargs : dict) : outcome Executor :=
  match jira_project_key with
  | Some key =>
      Returns
        (DefaultExecutor_init
           (AssigneeAndStatusExecutor (default ∅ status_map) (default ∅ resolution_map))
           key kwargs)
  | None => Raises TypeError
  end.

End default_with_assignee_and_status.

(** [calls_at_most n m]: whatever the world answers, [m] adds at most [n]
    calls to the trace. *)
Definition calls_at_most {A} (n : nat) (m : M A) : Prop :=
  ∀ (w : World) h, (List.length (run m w h).1 ≤ List.length h + n)%nat.

(** The calls made on a linked bug: field updates and comments on its
    issue, and the calls of the hook. *)
Definition is_update_call (key : pyval) (c : call) : Prop :=
  (∃ fields, c = update_issue_field key fields)
  ∨ (∃ comment_text, c = issue_add_comment key comment_text)
  ∨ is_hook_call key c.

(** A call that, if it creates an issue, gives it a description of at most
    [JIRA_DESCRIPTION_CHAR_LIMIT] characters. *)
Definition description_within_limit (c : call) : Prop :=
  ∀ fields, c = create_issue fields →
    ∃ s, dict_get "description" fields = Some (PyStr s)
         ∧ (N.of_nat (String.length s) ≤ JIRA_DESCRIPTION_CHAR_LIMIT)%N.

(** The calls of [create_and_link_issue] after the second read of the bug:
    none, the deletion of the duplicate, or the link on the bug, then the
    link on the issue, then the calls of the hook. *)
Definition is_link_tail (t : list call) : Prop :=
  t = []
  ∨ (∃ key, t = [delete_issue key])
  ∨ (∃ bug_id url, t = [update_bug bug_id [url]])
  ∨ (∃ bug_id url key link hook_calls,
       t = update_bug bug_id [url]
           :: create_or_update_issue_remote_links key link link :: hook_calls
       ∧ Forall (is_hook_call key) hook_calls).

(** The calls of [create_and_link_issue]: the comments are read, then the
    issue is created, then the bug is read again, then comes the tail. *)
Definition is_creation_trace (bug_id : Z) (t : list call) : Prop :=
  t = [get_comments bug_id]
  ∨ (∃ fields, t = [get_comments bug_id; create_issue fields])
  ∨ (∃ fields tail,
       t = get_comments bug_id :: create_issue fields :: get_bug bug_id :: tail
       ∧ is_link_tail tail).

(** ** Sample inputs

    A small instance of the models and settings, two executors and a few
    worlds, used to run the actions on concrete inputs. *)

Module Sample.

(** The key is the text after the last ["/"] of the first URL. *)
Fixpoint after_last_slash (acc s : string) : string :=
  match s with
  | EmptyString => acc
  | String a s' =>
      if Ascii.eqb a "/"%char then after_last_slash s' s' else after_last_slash acc s'
  end.

#[export] Instance models : Models := {|
  extract_from_see_also b :=
    match see_also b with
    | Some (url :: _) =>
        let k := after_last_slash "" url in if str_truthy k then Some k else None
    | _ => None
    end;
  get_jira_labels b :=
    match whiteboard b with
    | Some wb => ["bugzilla"; wb]
    | None => ["bugzilla"]
    end;
  issue_type _ := "Bug";
  map_event_as_comment b _ :=
    match comment b with
    | Some {| body := Some t |} => t
    | _ => ""
    end;
  map_changes_as_comments _ e status_log assignee_log :=
    match changes e with
    | Some l =>
        omap (λ '(field, removed, added),
                if (String.eqb field "status" && negb (default true status_log))
                   || (String.eqb field "assigned_to" && negb (default true assignee_log))
                then None
                else Some (field ++ ": " ++ removed ++ " -> " ++ added)%string) l
    | None => []
    end;
  changed_fields e := (λ l, map (λ c, c.1.1) l) <$> changes e;
|}.

#[export] Instance settings : Settings := {|
  jira_base_url := "https://jira.example.com/";
  bugzilla_base_url := "https://bugzilla.example.com";
  py_format v :=
    match v with
    | PyStr s => s
    | PyInt z => NilZero.string_of_int (Z.to_int z)
    | _ => "None"
    end;
|}.

Definition default_executor : Executor :=
  {| class_of := DefaultExecutor;
     jira_project_key := "JBI";
     sync_whiteboard_labels := true |}.

Definition status_names : gmap string string :=
  {[ "FIXED" := "Closed"; "ASSIGNED" := "In Progress" ]}.

Definition resolution_names : gmap string string :=
  {[ "FIXED" := "Done" ]}.

(** A resolution map with an entry whose value is empty. *)
Definition blank_resolution_names : gmap string string :=
  {[ "FIXED" := "" ]}.

Definition status_executor : Executor :=
  {| class_of := AssigneeAndStatusExecutor status_names resolution_names;
     jira_project_key := "JBI";
     sync_whiteboard_labels := false |}.

Definition unlinked_bug : BugzillaBug :=
  {| id := 654321; summary := Some "Crash on startup";
     status := Some "NEW"; resolution := Some "";
     assigned_to := Some "nobody@mozilla.org";
     whiteboard := Some "[devtest]"; see_also := Some [];
     comment := None |}.

Definition linked_bug : BugzillaBug :=
  {| id := 654321; summary := Some "Crash on startup";
     status := Some "RESOLVED"; resolution := Some "FIXED";
     assigned_to := Some "dev@example.com";
     whiteboard := Some "[devtest]";
     see_also := Some ["https://jira.example.com/browse/JBI-1"];
     comment := None |}.

Definition commented_bug : BugzillaBug :=
  {| id := 654321; summary := Some "Crash on startup";
     status := Some "NEW"; resolution := Some "";
     assigned_to := Some "nobody@mozilla.org";
     whiteboard := None; see_also := Some [];
     comment := Some {| body := Some "me too"; comment_id := Some 7%Z |} |}.

Definition bug_event : BugzillaWebhookEvent :=
  {| target := Some "bug"; routing_key := Some "bug.modify";
     changes := Some [("status", "NEW", "RESOLVED");
                      ("resolution", "", "FIXED");
                      ("assigned_to", "nobody@mozilla.org", "dev@example.com")] |}.

Definition comment_event : BugzillaWebhookEvent :=
  {| target := Some "comment"; routing_key := Some "comment.create";
     changes := None |}.

Definition attachment_event : BugzillaWebhookEvent :=
  {| target := Some "attachment"; routing_key := Some "attachment.create";
     changes := None |}.

(** A world in which every call returns: Bugzilla knows one bug, the one
    given, and Jira creates issue [created]. *)
Definition quiet_world (refetched : BugzillaBug) (created : pyval) : World :=
  λ _ c,
    match c return outcome (resp c) with
    | get_comments _ => Returns [{| text := "Steps to reproduce" |}]
    | get_bug _ => Returns refetched
    | create_issue _ => Returns created
    | user_find_by_user_string _ =>
        Returns (PyList [PyDict [("accountId", PyStr "5b10ac8d82e05b22cc7d4ef5")]])
    | update_bug _ _ => Returns (PyDict [("bugs", PyList [])])
    | update_issue_field _ _ => Returns PyNone
    | issue_add_comment _ _ => Returns (PyDict [("id", PyStr "10000")])
    | delete_issue _ => Returns PyNone
    | set_issue_status _ _ => Returns PyNone
    | create_or_update_issue_remote_links _ _ _ => Returns (PyDict [("id", PyInt 10000)])
    end.

(** The same world, except that setting an assignee account fails. *)
Definition flaky_world (refetched : BugzillaBug) (created : pyval) : World :=
  λ h c,
    match c return outcome (resp c) with
    | update_issue_field _ [("assignee", PyDict _)] => Raises (IOError "HTTP 400")
    | c => quiet_world refetched created h c
    end.

(** The same world, except that nobody is found in the user directory. *)
Definition unknown_user_world (refetched : BugzillaBug) (created : pyval) : World :=
  λ h c,
    match c return outcome (resp c) with
    | user_find_by_user_string _ => Returns (PyList [])
    | c => quiet_world refetched created h c
    end.

Definition first_comment : BugzillaComment := {| text := "Steps to reproduce" |}.

(** Answers of [create_issue]: a record with the key, and a record of
    errors. *)
Definition created : dict := [("id", PyStr "10001"); ("key", PyStr "JBI-2")].

Definition rejected : dict :=
  [("errorMessages", PyList []);
   ("errors", PyDict [("summary", PyStr "You must specify a summary.")])].

(** A world in which nothing can be written to Bugzilla. *)
Definition readonly_bugzilla_world (refetched : BugzillaBug) (created : pyval) : World :=
  λ h c,
    match c return outcome (resp c) with
    | update_bug _ _ => Raises (OtherError "BugzillaError")
    | c => quiet_world refetched created h c
    end.

(** A world in which the bug has no comment yet. *)
Definition uncommented_world (refetched : BugzillaBug) (created : pyval) : World :=
  λ h c,
    match c return outcome (resp c) with
    | get_comments _ => Returns []
    | c => quiet_world refetched created h c
    end.

(** A world whose Jira is not reachable. *)
Definition offline_jira_world (refetched : BugzillaBug) (created : pyval) : World :=
  λ h c,
    match c return outcome (resp c) with
    | get_comments i => quiet_world refetched created h (get_comments i)
    | get_bug i => quiet_world refetched created h (get_bug i)
    | update_bug i urls => quiet_world refetched created h (update_bug i urls)
    | _ => Raises (IOError "Connection refused")
    end.

(** A world whose user directory lists an account without its id. *)
Definition anonymous_user_world (refetched : BugzillaBug) (created : pyval) : World :=
  λ h c,
    match c return outcome (resp c) with
    | user_find_by_user_string _ =>
        Returns (PyList [PyDict [("displayName", PyStr "Dev")]])
    | c => quiet_world refetched created h c
    end.

(** A world whose user directory answers nothing. *)
Definition silent_directory_world (refetched : BugzillaBug) (created : pyval) : World :=
  λ h c,
    match c return outcome (resp c) with
    | user_find_by_user_string _ => Returns PyNone
    | c => quiet_world refetched created h c
    end.

Definition summary_event : BugzillaWebhookEvent :=
  {| target := Some "bug"; routing_key := Some "bug.modify";
     changes := Some [("summary", "Crash", "Crash on startup")] |}.

Definition linked_commented_bug : BugzillaBug :=
  {| id := 654321; summary := Some "Crash on startup";
     status := Some "NEW"; resolution := Some "";
     assigned_to := Some "nobody@mozilla.org";
     whiteboard := None;
     see_also := Some ["https://jira.example.com/browse/JBI-1"];
     comment := Some {| body := Some "me too"; comment_id := Some 7%Z |} |}.

(** The bug once linked to the issue that [created] describes. *)
Definition relinked_bug : BugzillaBug :=
  {| id := 654321; summary := Some "Crash on startup";
     status := Some "NEW"; resolution := Some "";
     assigned_to := Some "nobody@mozilla.org";
     whiteboard := Some "[devtest]";
     see_also := Some ["https://jira.example.com/browse/JBI-2"];
     comment := None |}.

End Sample.

(** * Properties *)

(** ** Running a computation *)

Section Run.

Lemma run_ret {A} (a : A) w h : run (mret a) w h = (h, Returns a).
Proof. reflexivity. Qed.

Lemma run_raise {A} (e : exn) w h : run (raise (A:=A) e) w h = (h, Raises e).
Proof. reflexivity. Qed.

Lemma run_remote c w h : run (remote c) w h = (h ++ [c], w h c).
Proof. reflexivity. Qed.

Lemma run_bind {A B} (m : M A) (f : A → M B) w h :
  run (m ≫= f) w h =
    match run m w h with
    | (h', Returns a) => run (f a) w h'
    | (h', Raises e) => (h', Raises e)
    end.
Proof. reflexivity. Qed.

Lemma run_ret_bind {A B} (a : A) (f : A → M B) w h :
  run (mret a ≫= f) w h = run (f a) w h.
Proof. reflexivity. Qed.

Lemma run_bind_returns {A B} (m : M A) (f : A → M B) w h h' a :
  run m w h = (h', Returns a) → run (m ≫= f) w h = run (f a) w h'.
Proof. intros Hm. rewrite run_bind, Hm. reflexivity. Qed.

Lemma run_bind_raises {A B} (m : M A) (f : A → M B) w h h' e :
  run m w h = (h', Raises e) → run (m ≫= f) w h = (h', Raises e).
Proof. intros Hm. rewrite run_bind, Hm. reflexivity. Qed.

Lemma run_try {A} (m : M A) handler w h :
  run (try_except_IOError m handler) w h =
    match run m w h with
    | (h', Returns a) => (h', Returns a)
    | (h', Raises e) => if is_IOError e then run (handler e) w h' else (h', Raises e)
    end.
Proof. reflexivity. Qed.

End Run.

(** Unfold the next client call of the goal ([rewrite run_remote] cannot
    guess the call from the type of its answer). *)
Ltac run_remote :=
  match goal with
  | |- context [run (remote ?c) ?w ?h] =>
      change (run (remote c) w h) with (h ++ [c], w h c)
  end.

(** ** Calls added to the trace *)

Section Emits.
Context (P : call → Prop).

Lemma emits_ret {A} (a : A) : emits P (mret a).
Proof. intros w h. exists []. rewrite app_nil_r. split; [reflexivity|constructor]. Qed.

Lemma emits_raise {A} (e : exn) : emits P (raise (A:=A) e).
Proof. intros w h. exists []. rewrite app_nil_r. split; [reflexivity|constructor]. Qed.

Lemma emits_remote c : P c → emits P (remote c).
Proof.
intros Hc w h. exists [c]. split; [reflexivity|]. repeat constructor. exact Hc.
Qed.

Lemma emits_bind {A B} (m : M A) (f : A → M B) :
  emits P m → (∀ a, emits P (f a)) → emits P (m ≫= f).
Proof.
intros Hm Hf w h. rewrite run_bind.
destruct (Hm w h) as (t & Ht & HP).
destruct (run m w h) as [h' [a|e]]; simpl in Ht; subst h'.
- destruct (Hf a w (h ++ t)) as (t' & Ht' & HP').
  exists (t ++ t'). rewrite Ht', app_assoc. split; [reflexivity|].
  apply Forall_app; split; assumption.
- exists t. split; [reflexivity|assumption].
Qed.

Lemma emits_try {A} (m : M A) handler :
  emits P m → (∀ e, emits P (handler e)) → emits P (try_except_IOError m handler).
Proof.
intros Hm Hh w h. rewrite run_try.
destruct (Hm w h) as (t & Ht & HP).
destruct (run m w h) as [h' [a|e]]; simpl in Ht; subst h'.
- exists t. split; [reflexivity|assumption].
- destruct (is_IOError e).
  + destruct (Hh e w (h ++ t)) as (t' & Ht' & HP').
    exists (t ++ t'). rewrite Ht', app_assoc. split; [reflexivity|].
    apply Forall_app; split; assumption.
  + exists t. split; [reflexivity|assumption].
Qed.

Lemma emits_for_append {A B} (f : A → M B) l :
  (∀ x, emits P (f x)) → emits P (for_append f l).
Proof.
intros Hf. induction l as [|x l IH]; simpl.
- apply emits_ret.
- apply emits_bind; [apply Hf|]. intros r.
  apply emits_bind; [apply IH|]. intros rs. apply emits_ret.
Qed.

End Emits.

(** One step through a computation whose calls are to be checked. *)
Ltac emits_step :=
  match goal with
  | |- emits _ (mret _) => apply emits_ret
  | |- emits _ (raise _) => apply emits_raise
  | |- emits ?P (remote ?c) => refine (emits_remote P c _)
  | |- emits _ (_ ≫= _) => apply emits_bind; [|intros ?]
  | |- emits _ (try_except_IOError _ _) => apply emits_try; [|intros ?]
  | |- emits _ (for_append _ _) => apply emits_for_append; intros ?
  | |- emits _ (let _ := _ in _) => cbv zeta
  | |- emits _ (if ?b then _ else _) => destruct b
  | |- emits _ (match ?x with _ => _ end) => destruct x
  end.

Lemma emits_impl {A} (P Q : call → Prop) (m : M A) :
  (∀ c, P c → Q c) → emits P m → emits Q m.
Proof.
intros HPQ Hm w h. destruct (Hm w h) as (t & Ht & HP).
exists t. split; [exact Ht|]. eapply Forall_impl; eassumption.
Qed.

(** ** Comparisons and lookups *)

Lemma opt_eq_str_true o s : opt_eq_str o s = true ↔ o = Some s.
Proof.
destruct o as [s'|]; simpl.
- rewrite String.eqb_eq. split; congruence.
- split; discriminate.
Qed.

Lemma opt_eq_str_false o s : opt_eq_str o s = false ↔ o ≠ Some s.
Proof.
rewrite <- opt_eq_str_true. destruct (opt_eq_str o s); split; congruence.
Qed.

Lemma py_eq_str_true v s : py_eq_str v s = true ↔ v = PyStr s.
Proof.
destruct v; simpl; try (split; discriminate).
rewrite String.eqb_eq. split; congruence.
Qed.

Lemma py_eq_str_false v s : py_eq_str v s = false ↔ v ≠ PyStr s.
Proof.
rewrite <- py_eq_str_true. destruct (py_eq_str v s); split; congruence.
Qed.

Lemma str_truthy_true s : str_truthy s = true ↔ s ≠ "".
Proof.
unfold str_truthy. rewrite negb_true_iff, String.eqb_neq. reflexivity.
Qed.

Lemma str_in_true x l : str_in x l = true ↔ x ∈ l.
Proof.
unfold str_in. rewrite existsb_exists. split.
- intros (y & Hy & Heq). apply String.eqb_eq in Heq. subst y.
  apply list_elem_of_In; assumption.
- intros Hx. exists x. split; [apply list_elem_of_In; assumption|].
  apply String.eqb_refl.
Qed.

Lemma str_in_false x l : str_in x l = false ↔ x ∉ l.
Proof.
rewrite <- str_in_true. destruct (str_in x l); split; congruence.
Qed.

(** ** The dispatch of [__call__] *)

Section Dispatch.
Context `{models : Models} `{settings : Settings}.

Lemma call_comment self bug event :
  target event = Some "comment" →
  call_ self bug event = comment_create_or_noop self bug event.
Proof.
intros Ht. unfold call_. apply opt_eq_str_true in Ht. rewrite Ht. reflexivity.
Qed.

Lemma call_bug self bug event :
  target event = Some "bug" →
  call_ self bug event = bug_create_or_update self bug event.
Proof.
intros Ht. unfold call_. rewrite Ht. reflexivity.
Qed.

(** C10: an event whose target is neither ["comment"] nor ["bug"] (or is
    missing) leaves the trace of remote calls as it was and the result is
    [(False, {})]. *)
Theorem call_ignores_other_targets self bug event w h :
  target event ≠ Some "comment" →
  target event ≠ Some "bug" →
  run (call_ self bug event) w h = (h, Returns (false, [])).
Proof.
intros Hc Hb. unfold call_.
apply opt_eq_str_false in Hc. apply opt_eq_str_false in Hb.
rewrite Hc, Hb. apply run_ret.
Qed.

(** C4: a comment event on a bug without an extracted link ([None], or the
    empty string, which [not linked_issue_key] treats alike), and one on a
    linked bug without a comment payload, make no remote call and result in
    [(False, {})]; so does [__call__] on such an event. *)
Theorem comment_noop self bug event w h :
  opt_truthy (extract_from_see_also bug) = false ∨ comment bug = None →
  run (comment_create_or_noop self bug event) w h = (h, Returns (false, []))
  ∧ (target event = Some "comment" →
     run (call_ self bug event) w h = (h, Returns (false, []))).
Proof.
intros Hno.
assert (Hrun : run (comment_create_or_noop self bug event) w h
               = (h, Returns (false, []))).
{ unfold comment_create_or_noop.
  destruct Hno as [Hlink | Hcomment].
  - rewrite Hlink. reflexivity.
  - rewrite Hcomment.
    destruct (opt_truthy (extract_from_see_also bug)); reflexivity. }
split; [exact Hrun|].
intros Ht. rewrite (call_comment _ _ _ Ht). exact Hrun.
Qed.

End Dispatch.

(** ** The assignee and status reconciler *)

Section Reconciler.
Context `{models : Models} `{settings : Settings}.

Lemma run_discarded_remote c (w : World) h :
  run (_ ← remote c; mret tt) w h = (h ++ [c], discard (w h c)).
Proof.
rewrite run_bind. run_remote. destruct (w h c); reflexivity.
Qed.

Lemma run_clear_assignee key is_new (w : World) h :
  run (clear_assignee key is_new) w h =
    if is_new then (h, Returns tt)
    else (h ++ [update_issue_field key [("assignee", PyNone)]],
          discard (w h (update_issue_field key [("assignee", PyNone)]))).
Proof.
unfold clear_assignee. destruct is_new; simpl.
- reflexivity.
- exact (run_discarded_remote (update_issue_field _ _) w h).
Qed.

Lemma assignee_rule_fires is_new changed :
  is_new = true ∨ "assigned_to" ∈ changed →
  is_new || str_in "assigned_to" changed = true.
Proof.
intros [-> | Hin]; [reflexivity|].
apply str_in_true in Hin. rewrite Hin. apply orb_true_r.
Qed.

(** The hook of the subclass is its two blocks, one after the other. *)
Lemma update_issue_blocks self sm rm bug event key is_new :
  class_of self = AssigneeAndStatusExecutor sm rm →
  update_issue self bug event key is_new =
    (_ ← update_assignee bug (default [] (changed_fields event)) key is_new;
     update_status sm rm bug (default [] (changed_fields event)) key is_new).
Proof. intros Hc. unfold update_issue. rewrite Hc. reflexivity. Qed.

(** The hook runs the status rule after the assignee rule, unless that one
    raised. *)
Lemma run_update_issue self sm rm bug event key is_new (w : World) h :
  class_of self = AssigneeAndStatusExecutor sm rm →
  run (update_issue self bug event key is_new) w h =
    let changed := default [] (changed_fields event) in
    match run (update_assignee bug changed key is_new) w h with
    | (h', Returns _) => run (update_status sm rm bug changed key is_new) w h'
    | (h', Raises e) => (h', Raises e)
    end.
Proof.
intros Hclass. rewrite (update_issue_blocks _ _ _ _ _ _ _ Hclass). apply run_bind.
Qed.

(** C9: when the assignee rule runs and the bug is assigned to
    [nobody@mozilla.org], an existing issue gets exactly one call,
    [update_issue_field] with [{"assignee": None}], and a new issue gets no
    call at all from the rule. *)
Theorem sentinel_assignee_cleared bug changed key is_new (w : World) h :
  assigned_to bug = Some "nobody@mozilla.org" →
  is_new = true ∨ "assigned_to" ∈ changed →
  run (update_assignee bug changed key is_new) w h =
    if is_new then (h, Returns tt)
    else (h ++ [update_issue_field key [("assignee", PyNone)]],
          discard (w h (update_issue_field key [("assignee", PyNone)]))).
Proof.
intros Hnobody Hfires. unfold update_assignee.
rewrite (assignee_rule_fires _ _ Hfires), Hnobody. simpl.
apply run_clear_assignee.
Qed.

(** C8: when the assignee rule runs for another assignee, the user is
    looked up.  With exactly one account found, its [accountId] is set on
    the issue; if that call raises an [IOError] the rule goes on to
    [clear_assignee] (which clears the field of an existing issue and does
    nothing for a new one) instead of raising, and any other exception of
    the call is raised.  With no or several accounts found, the assignee of
    an existing issue is cleared. *)
Theorem assignee_lookup_fallback bug changed key is_new (w : World) h :
  assigned_to bug ≠ Some "nobody@mozilla.org" →
  is_new = true ∨ "assigned_to" ∈ changed →
  let find := user_find_by_user_string (assigned_to bug) in
  let clear := update_issue_field key [("assignee", PyNone)] in
  (∀ account account_id,
     w h find = Returns (PyList [PyDict account]) →
     dict_get "accountId" account = Some account_id →
     let set := update_issue_field key
                  [("assignee", PyDict [("accountId", account_id)])] in
     run (update_assignee bug changed key is_new) w h =
       match w (h ++ [find]) set with
       | Returns _ => (h ++ [find; set], Returns tt)
       | Raises e =>
           if is_IOError e then
             if is_new then (h ++ [find; set], Returns tt)
             else (h ++ [find; set; clear], discard (w (h ++ [find; set]) clear))
           else (h ++ [find; set], Raises e)
       end)
  ∧ (∀ users,
       w h find = Returns (PyList users) →
       List.length users ≠ 1 →
       is_new = false →
       run (update_assignee bug changed key is_new) w h =
         (h ++ [find; clear], discard (w (h ++ [find]) clear))).
Proof.
intros Hother Hfires find clear.
apply opt_eq_str_false in Hother.
split.
- intros account account_id Hfind Hid set.
  unfold update_assignee.
  rewrite (assignee_rule_fires _ _ Hfires), Hother.
  rewrite run_bind. run_remote. fold find. rewrite Hfind.
  simpl. rewrite run_ret_bind. simpl.
  rewrite run_try, run_ret_bind. simpl. rewrite Hid, run_ret_bind.
  rewrite (run_discarded_remote set).
  rewrite <- app_assoc. simpl.
  destruct (w (h ++ [find]) set) as [x|e]; simpl; [reflexivity|].
  destruct (is_IOError e); [|reflexivity].
  rewrite run_clear_assignee. destruct is_new; [reflexivity|].
  rewrite <- app_assoc. reflexivity.
- intros users Hfind Hlen ->.
  unfold update_assignee.
  rewrite (assignee_rule_fires _ _ Hfires), Hother.
  rewrite run_bind. run_remote. fold find. rewrite Hfind.
  simpl. rewrite run_ret_bind.
  destruct (Nat.eqb_spec (List.length users) 1) as [Heq|_]; [contradiction|].
  rewrite run_clear_assignee. rewrite <- app_assoc. reflexivity.
Qed.

Lemma status_rule_fires is_new changed :
  is_new = true ∨ "status" ∈ changed ∨ "resolution" ∈ changed →
  is_new || str_in "status" changed || str_in "resolution" changed = true.
Proof.
intros [-> | [Hin | Hin]]; [reflexivity| |];
  apply str_in_true in Hin; rewrite Hin.
- rewrite orb_true_r. reflexivity.
- apply orb_true_r.
Qed.

Lemma opt_truthy_Some_true o s : o = Some s → s ≠ "" → opt_truthy o = true.
Proof. intros -> Hs. apply str_truthy_true, Hs. Qed.

Lemma opt_truthy_false o : opt_truthy o = false ↔ o = None ∨ o = Some "".
Proof.
destruct o as [s|]; simpl.
- unfold str_truthy. rewrite negb_false_iff, String.eqb_eq.
  split; [intros ->; right; reflexivity | intros [?|?]; congruence].
- split; [left; reflexivity | reflexivity].
Qed.

(** The block of the status rule once its condition holds: the resolution
    update, if the lookup gave a non-empty value, then the transition, if
    the lookup gave a non-empty value. *)
Lemma run_update_status sm rm bug changed key is_new (w : World) h :
  is_new = true ∨ "status" ∈ changed ∨ "resolution" ∈ changed →
  run (update_status sm rm bug changed key is_new) w h =
    let transition h' :=
      match map_get sm (py_or (resolution bug) (status bug)) with
      | Some s =>
          if str_truthy s
          then (h' ++ [set_issue_status key s],
                discard (w h' (set_issue_status key s)))
          else (h', Returns tt)
      | None => (h', Returns tt)
      end in
    match map_get rm (resolution bug) with
    | Some r =>
        if str_truthy r then
          let set := update_issue_field key [("resolution", PyStr r)] in
          match w h set with
          | Returns _ => transition (h ++ [set])
          | Raises e => (h ++ [set], Raises e)
          end
        else transition h
    | None => transition h
    end.
Proof.
intros Hfires. unfold update_status.
rewrite (status_rule_fires _ _ Hfires). cbv zeta.
assert (Htransition : ∀ h',
  run (match map_get sm (py_or (resolution bug) (status bug)) with
       | Some s =>
           if str_truthy s
           then _ ← remote (set_issue_status key s); mret tt
           else mret tt
       | None => mret tt
       end) w h'
  = match map_get sm (py_or (resolution bug) (status bug)) with
    | Some s =>
        if str_truthy s
        then (h' ++ [set_issue_status key s],
              discard (w h' (set_issue_status key s)))
        else (h', Returns tt)
    | None => (h', Returns tt)
    end).
{ intros h'. destruct (map_get sm _) as [s|]; [|reflexivity].
  destruct (str_truthy s); [|reflexivity].
  exact (run_discarded_remote (set_issue_status _ _) w h'). }
rewrite run_bind.
destruct (map_get rm (resolution bug)) as [r|]; [|apply Htransition].
destruct (str_truthy r); [|apply Htransition].
rewrite (run_discarded_remote (update_issue_field _ _)).
destruct (w h _); [apply Htransition | reflexivity].
Qed.

(** Whatever happens, the hook only looks up users, updates the assignee or
    the resolution field, and sets the status. *)
Lemma emits_update_issue self bug event key is_new :
  emits (is_hook_call key) (update_issue self bug event key is_new).
Proof.
unfold update_issue, update_assignee, update_status, clear_assignee,
  py_len, py_item0, py_item.
repeat emits_step; unfold is_hook_call; eauto 8.
Qed.

Lemma hook_call_not_create key c : is_hook_call key c → not_create_issue c.
Proof.
intros [[? ->] | [[? ->] | [[? ->] | [? ->]]]] fields; discriminate.
Qed.

Lemma hook_call_without_labels key c : is_hook_call key c → without_labels c.
Proof.
intros [[? ->] | [[? ->] | [[? ->] | [? ->]]]] fields Hf;
  simpl in Hf; try discriminate; injection Hf as <-; reflexivity.
Qed.

Lemma hook_call_not_posted key c : is_hook_call key c → posted_comment c = None.
Proof.
intros [[? ->] | [[? ->] | [[? ->] | [? ->]]]]; reflexivity.
Qed.

End Reconciler.

(** ** The update path of [bug_create_or_update] *)

Section UpdatePath.
Context `{models : Models} `{settings : Settings}.

(** With a non-empty key extracted, [bug_create_or_update] is its second
    half. *)
Lemma bug_update_path self bug event key :
  extract_from_see_also bug = Some key →
  key ≠ "" →
  bug_create_or_update self bug event =
    (jira_response_update ←
       remote (update_issue_field (PyStr key) (jira_fields self bug));
     jira_response_comments ←
       for_append (λ c, remote (issue_add_comment (PyStr key) c))
         (jira_comments_for_update self bug event);
     _ ← update_issue self bug event (PyStr key) false;
     mret (true, [("jira_responses",
                   PyList [jira_response_update; PyList jira_response_comments])])).
Proof.
intros Hkey Hne. unfold bug_create_or_update.
rewrite Hkey. simpl. apply str_truthy_true in Hne. rewrite Hne. reflexivity.
Qed.

(** The loop posts the comments one by one, in order, until a call
    raises. *)
Lemma run_posts key comments (w : World) h :
  let result :=
    run (for_append (λ c, remote (issue_add_comment key c)) comments) w h in
  ∃ n, result.1 = h ++ map (issue_add_comment key) (take n comments)
       ∧ ∀ rs, result.2 = Returns rs → take n comments = comments.
Proof.
revert h. induction comments as [|c comments IH]; intros h; simpl.
- exists 0. rewrite app_nil_r. split; [reflexivity|]. intros _ _. reflexivity.
- rewrite run_bind. run_remote.
  destruct (w h (issue_add_comment key c)) as [r|e].
  + rewrite run_bind.
    destruct (IH (h ++ [issue_add_comment key c])) as (n & Htrace & Hall).
    simpl in Htrace, Hall.
    destruct (run (for_append _ comments) w _) as [h' [rs|e]];
      simpl in *; subst h'.
    * exists (S n). rewrite <- app_assoc. split; [reflexivity|].
      intros _ _. simpl. rewrite (Hall rs eq_refl). reflexivity.
    * exists (S n). rewrite <- app_assoc. split; [reflexivity|].
      intros rs' Habs. discriminate Habs.
  + exists 1. simpl. rewrite take_0. split; [reflexivity|].
    intros rs' Habs. discriminate Habs.
Qed.

(** If the world answers every post, all the comments are posted. *)
Lemma run_posts_answered key comments (w : World) h :
  (∀ h' c, ∃ x, w h' (issue_add_comment key c) = Returns x) →
  ∃ rs, List.length rs = List.length comments
        ∧ run (for_append (λ c, remote (issue_add_comment key c)) comments) w h
          = (h ++ map (issue_add_comment key) comments, Returns rs).
Proof.
intros Hanswers. revert h.
induction comments as [|c comments IH]; intros h; simpl.
- exists []. rewrite app_nil_r. split; reflexivity.
- rewrite run_bind. run_remote.
  destruct (Hanswers h c) as (x & Hx). rewrite Hx.
  destruct (IH (h ++ [issue_add_comment key c])) as (rs & Hlen & Hrun).
  rewrite run_bind, Hrun, run_ret.
  exists (x :: rs). simpl. rewrite Hlen, <- app_assoc. split; reflexivity.
Qed.

Lemma emits_after_update P self bug event key (r : pyval) :
  (∀ c, P (issue_add_comment key c)) →
  (∀ c, is_hook_call key c → P c) →
  emits P
    (jira_response_comments ←
       for_append (λ c, remote (issue_add_comment key c))
         (jira_comments_for_update self bug event);
     _ ← update_issue self bug event key false;
     mret (true, [("jira_responses",
                   PyList [r; PyList jira_response_comments])])).
Proof.
intros Hpost Hhook. repeat emits_step.
- apply Hpost.
- eapply emits_impl; [exact Hhook | apply emits_update_issue].
Qed.

(** The update path when the field update and the posts return. *)
Lemma run_bug_update_answered self bug event key (w : World) h r :
  extract_from_see_also bug = Some key →
  key ≠ "" →
  let update := update_issue_field (PyStr key) (jira_fields self bug) in
  let post := issue_add_comment (PyStr key) in
  let comments := jira_comments_for_update self bug event in
  w h update = Returns r →
  (∀ h' c, ∃ x, w h' (post c) = Returns x) →
  ∃ rs,
    List.length rs = List.length comments
    ∧ let hook :=
        run (update_issue self bug event (PyStr key) false) w
          (h ++ update :: map post comments) in
      run (bug_create_or_update self bug event) w h =
        (hook.1,
         match hook.2 with
         | Returns _ =>
             Returns (true, [("jira_responses", PyList [r; PyList rs])])
         | Raises e => Raises e
         end).
Proof.
intros Hkey Hne update post comments Hr Hanswers.
rewrite (bug_update_path _ _ _ _ Hkey Hne).
rewrite run_bind. run_remote. fold update. rewrite Hr. cbv beta iota.
rewrite run_bind.
destruct (run_posts_answered (PyStr key) comments w (h ++ [update]) Hanswers)
  as (rs & Hlen & Hrun).
fold comments. rewrite Hrun. exists rs. split; [exact Hlen|].
rewrite run_bind. fold post. rewrite <- app_assoc. simpl.
destruct (run (update_issue _ _ _ _ _) w _) as [h3 [[]|e]]; reflexivity.
Qed.

(** C2: for a bug whose [see_also] yields a (non-empty) issue key,
    [bug_create_or_update] first calls [update_issue_field] on that key with
    the fields of the bug, and never calls [create_issue]; when that call
    and the posts return, the trace goes on with one [issue_add_comment] per
    mapped comment, in order, then with the calls of [update_issue] run with
    [is_new=False], and the result is [(True, ...)] unless the hook raises. *)
Theorem linked_bug_is_updated self bug event key (w : World) h :
  extract_from_see_also bug = Some key →
  key ≠ "" →
  let update := update_issue_field (PyStr key) (jira_fields self bug) in
  let post := issue_add_comment (PyStr key) in
  let comments := jira_comments_for_update self bug event in
  let result := run (bug_create_or_update self bug event) w h in
  (∃ t, result.1 = h ++ update :: t ∧ Forall not_create_issue t)
  ∧ (∀ r,
       w h update = Returns r →
       (∀ h' c, ∃ x, w h' (post c) = Returns x) →
       ∃ rs,
         List.length rs = List.length comments
         ∧ let hook :=
             run (update_issue self bug event (PyStr key) false) w
               (h ++ update :: map post comments) in
           result =
             (hook.1,
              match hook.2 with
              | Returns _ =>
                  Returns (true, [("jira_responses", PyList [r; PyList rs])])
              | Raises e => Raises e
              end)).
Proof.
intros Hkey Hne update post comments result. split.
- unfold result. rewrite (bug_update_path _ _ _ _ Hkey Hne).
  rewrite run_bind. run_remote. fold update.
  destruct (w h update) as [r|e].
  + destruct (emits_after_update not_create_issue self bug event (PyStr key) r)
      with (w := w) (h := h ++ [update]) as (t & Ht & Hnot).
    * intros c fields. discriminate.
    * intros c. apply hook_call_not_create.
    * exists t. split; [|exact Hnot].
      etransitivity; [exact Ht|]. rewrite <- app_assoc. reflexivity.
  + exists []. split; [reflexivity|constructor].
- intros r Hr Hanswers.
  exact (run_bug_update_answered _ _ _ _ _ _ _ Hkey Hne Hr Hanswers).
Qed.

End UpdatePath.

(** ** Strings and dicts *)

Lemma substring_0_all n s : (String.length s ≤ n)%nat → substring 0 n s = s.
Proof.
revert n. induction s as [|a s IH]; intros [|n] Hlen; simpl in *;
  try reflexivity; try lia.
rewrite IH by lia. reflexivity.
Qed.

Lemma substring_0_length n s :
  (n ≤ String.length s)%nat → String.length (substring 0 n s) = n.
Proof.
revert n. induction s as [|a s IH]; intros [|n] Hlen; simpl in *;
  try reflexivity; try lia.
rewrite IH by lia. reflexivity.
Qed.

Lemma substring_0_prefix n s : ∃ rest, s = (substring 0 n s ++ rest)%string.
Proof.
revert n. induction s as [|a s IH]; intros [|n]; simpl.
- exists "". reflexivity.
- exists "". reflexivity.
- exists (String a s). reflexivity.
- destruct (IH n) as (rest & Hrest). exists rest.
  change (String a s = String a (substring 0 n s ++ rest)%string).
  f_equal. exact Hrest.
Qed.

Lemma dict_get_Some_key k d v : dict_get k d = Some v → In k (dict_keys d).
Proof.
induction d as [|[k' v'] d IH]; simpl; [discriminate|].
destruct (String.eqb_spec k k') as [->|Hne]; [left; reflexivity|].
intros Hget. right. apply IH, Hget.
Qed.

Lemma has_errors_true d :
  has_errors d = true ↔
  ∃ element v,
    (element = "errors" ∨ element = "errorMessages")
    ∧ dict_get element d = Some v ∧ truthy v = true.
Proof.
unfold has_errors. rewrite existsb_exists. split.
- intros (element & _ & Hboth). apply andb_true_iff in Hboth as [Hname Htruthy].
  unfold dict_get_default in Htruthy.
  destruct (dict_get element d) as [v|] eqn:Hget; [|discriminate].
  exists element, v. split; [|split; [exact Hget|exact Htruthy]].
  simpl in Hname. rewrite orb_false_r in Hname.
  apply orb_true_iff in Hname as [Hname | Hname];
    apply String.eqb_eq in Hname; auto.
- intros (element & v & Hname & Hget & Htruthy). exists element.
  split; [eapply dict_get_Some_key, Hget|].
  unfold dict_get_default. rewrite Hget, Htruthy, andb_true_r.
  destruct Hname as [-> | ->]; reflexivity.
Qed.

(** ** The creation path *)

Section CreationPath.
Context `{models : Models} `{settings : Settings}.

(** Without a usable key, [bug_create_or_update] is [create_and_link_issue]. *)
Lemma bug_creation_path self bug event :
  opt_truthy (extract_from_see_also bug) = false →
  bug_create_or_update self bug event = create_and_link_issue self bug event.
Proof. intros Hno. unfold bug_create_or_update. rewrite Hno. reflexivity. Qed.

(** Once the first comment is fetched, the issue is created from it. *)
Lemma run_create_and_link self bug event (w : World) h first_comment others :
  let fetch := get_comments (id bug) in
  let create :=
    create_issue
      (creation_fields self bug
         (str_prefix JIRA_DESCRIPTION_CHAR_LIMIT (text first_comment))) in
  w h fetch = Returns (first_comment :: others) →
  run (create_and_link_issue self bug event) w h =
    match w (h ++ [fetch]) create with
    | Returns r => run (link_created_issue self bug event r) w (h ++ [fetch; create])
    | Raises e => (h ++ [fetch; create], Raises e)
    end.
Proof.
intros fetch create Hfetch. unfold create_and_link_issue.
rewrite run_bind. run_remote. fold fetch. rewrite Hfetch.
cbv beta iota. simpl first_item. rewrite run_ret_bind. cbv zeta.
rewrite run_bind. run_remote. fold create. rewrite <- app_assoc. simpl.
destruct (w (h ++ [fetch]) create); reflexivity.
Qed.

Lemma run_link_created self bug event response d (w : World) h :
  answers_record response d →
  run (link_created_issue self bug event response) w h =
    run (link_created_issue self bug event (PyDict d)) w h.
Proof.
intros [-> | (others & ->)]; reflexivity.
Qed.

(** C3: when the answer of [create_issue] is a record, or a list whose first
    element is a record, in which [errors] or [errorMessages] has a truthy
    value, [create_and_link_issue] raises [ActionError] right after the
    [create_issue] call: the trace ends there, so the bug is not re-fetched
    or updated, no remote link is made and the hook is not run. *)
Theorem create_response_errors_abort
    self bug event (w : World) h first_comment others response d :
  let fetch := get_comments (id bug) in
  let create :=
    create_issue
      (creation_fields self bug
         (str_prefix JIRA_DESCRIPTION_CHAR_LIMIT (text first_comment))) in
  w h fetch = Returns (first_comment :: others) →
  w (h ++ [fetch]) create = Returns response →
  answers_record response d →
  (∃ element v,
     (element = "errors" ∨ element = "errorMessages")
     ∧ dict_get element d = Some v ∧ truthy v = true) →
  run (create_and_link_issue self bug event) w h =
    (h ++ [fetch; create], Raises (ActionError (PyDict d))).
Proof.
intros fetch create Hfetch Hcreate Hrecord Herrors.
rewrite (run_create_and_link _ _ _ _ _ _ _ Hfetch).
fold fetch create. rewrite Hcreate.
rewrite (run_link_created _ _ _ _ _ _ _ Hrecord).
apply has_errors_true in Herrors.
unfold link_created_issue. simpl first_if_list. rewrite run_ret_bind.
unfold check_errors. rewrite Herrors. reflexivity.
Qed.

(** C1: when the created issue has key [k2] and the bug fetched again after
    the creation is linked to a key [k1] other than [k2], the calls of
    [create_and_link_issue] are: fetch the comments, create the issue, fetch
    the bug, delete issue [k2].  There is no [update_bug] call and no remote
    link, and the result is [(True, {"jira_response": ...})] with the answer
    of the delete call (an exception raised by that call is raised). *)
Theorem duplicate_issue_deleted
    self bug event (w : World) h first_comment others response d refetched k1 :
  let fetch := get_comments (id bug) in
  let create :=
    create_issue
      (creation_fields self bug
         (str_prefix JIRA_DESCRIPTION_CHAR_LIMIT (text first_comment))) in
  let k2 := dict_get_default "key" d in
  let refetch := get_bug (id bug) in
  let delete := delete_issue k2 in
  w h fetch = Returns (first_comment :: others) →
  w (h ++ [fetch]) create = Returns response →
  answers_record response d →
  has_errors d = false →
  w (h ++ [fetch; create]) refetch = Returns refetched →
  extract_from_see_also refetched = Some k1 →
  k2 ≠ PyStr k1 →
  run (create_and_link_issue self bug event) w h =
    (h ++ [fetch; create; refetch; delete],
     match w (h ++ [fetch; create; refetch]) delete with
     | Returns jira_response_delete =>
         Returns (true, [("jira_response", jira_response_delete)])
     | Raises e => Raises e
     end).
Proof.
intros fetch create k2 refetch delete Hfetch Hcreate Hrecord Hclean Hrefetch Hk1 Hdiff.
rewrite (run_create_and_link _ _ _ _ _ _ _ Hfetch).
fold fetch create. rewrite Hcreate.
rewrite (run_link_created _ _ _ _ _ _ _ Hrecord).
unfold link_created_issue. simpl first_if_list. rewrite run_ret_bind.
unfold check_errors. rewrite Hclean, run_ret_bind.
simpl py_get. rewrite run_ret_bind. fold k2.
rewrite run_bind. run_remote. fold refetch. rewrite Hrefetch.
cbv beta iota zeta. rewrite Hk1.
apply py_eq_str_false in Hdiff. rewrite Hdiff. simpl negb. cbv iota.
rewrite run_bind. run_remote. fold delete.
rewrite <- !app_assoc. simpl.
destruct (w (h ++ [fetch; create; refetch]) delete); reflexivity.
Qed.

Lemma emits_link_created P self bug event response :
  (∀ i, P (get_bug i)) →
  (∀ k, P (delete_issue k)) →
  (∀ i urls, P (update_bug i urls)) →
  (∀ k url title, P (create_or_update_issue_remote_links k url title)) →
  (∀ key c, is_hook_call key c → P c) →
  emits P (link_created_issue self bug event response).
Proof.
intros Hget Hdelete Hupdate Hlink Hhook.
unfold link_created_issue, first_if_list, first_item, check_errors, py_get.
repeat emits_step; auto.
all: eapply emits_impl; [apply Hhook | apply emits_update_issue].
Qed.

Lemma emits_create_and_link P self bug event :
  (∀ i, P (get_comments i)) →
  (∀ description, P (create_issue (creation_fields self bug description))) →
  (∀ i, P (get_bug i)) →
  (∀ k, P (delete_issue k)) →
  (∀ i urls, P (update_bug i urls)) →
  (∀ k url title, P (create_or_update_issue_remote_links k url title)) →
  (∀ key c, is_hook_call key c → P c) →
  emits P (create_and_link_issue self bug event).
Proof.
intros Hcomments Hcreate Hget Hdelete Hupdate Hlink Hhook.
unfold create_and_link_issue, first_item.
repeat emits_step; auto.
all: apply emits_link_created; assumption.
Qed.

Lemma posted_posts key comments :
  omap posted_comment (map (issue_add_comment key) comments) = comments.
Proof.
induction comments as [|c comments IH]; simpl; [reflexivity|].
f_equal. exact IH.
Qed.

Lemma posted_hook_calls key t :
  Forall (is_hook_call key) t → omap posted_comment t = [].
Proof.
induction 1 as [|c t Hc _ IH]; simpl; [reflexivity|].
rewrite (hook_call_not_posted _ _ Hc). exact IH.
Qed.

(** C5: the description sent to [create_issue] is the first comment cut to
    its first 32767 characters: (1) a text of at most 32767 characters is
    kept whole; (2) a longer one is cut to exactly 32767 characters, which
    are its first ones; (3) the [description] of the creation payload is that
    cut text; (4) in the update flow the texts posted with
    [issue_add_comment] are the mapped comments themselves, in order (all of
    them when the action returns, the first ones when a call raised). *)
Theorem description_cut_comments_whole :
  (∀ s,
     (N.of_nat (String.length s) ≤ JIRA_DESCRIPTION_CHAR_LIMIT)%N →
     str_prefix JIRA_DESCRIPTION_CHAR_LIMIT s = s)
  ∧ (∀ s,
       (JIRA_DESCRIPTION_CHAR_LIMIT < N.of_nat (String.length s))%N →
       N.of_nat (String.length (str_prefix JIRA_DESCRIPTION_CHAR_LIMIT s))
         = JIRA_DESCRIPTION_CHAR_LIMIT
       ∧ ∃ rest, s = (str_prefix JIRA_DESCRIPTION_CHAR_LIMIT s ++ rest)%string)
  ∧ (∀ self bug event (w : World) h first_comment others,
       w h (get_comments (id bug)) = Returns (first_comment :: others) →
       ∃ fields t,
         (run (create_and_link_issue self bug event) w h).1
           = h ++ get_comments (id bug) :: create_issue fields :: t
         ∧ dict_get "description" fields
           = Some (PyStr (str_prefix JIRA_DESCRIPTION_CHAR_LIMIT (text first_comment))))
  ∧ (∀ self bug event key (w : World) h,
       extract_from_see_also bug = Some key →
       key ≠ "" →
       let result := run (bug_create_or_update self bug event) w h in
       ∃ t,
         result.1 = h ++ t
         ∧ omap posted_comment t `prefix_of` jira_comments_for_update self bug event
         ∧ ∀ x, result.2 = Returns x →
             omap posted_comment t = jira_comments_for_update self bug event).
Proof.
split; [|split; [|split]].
- intros s Hlen. apply substring_0_all. lia.
- intros s Hlen. unfold str_prefix. split.
  + rewrite substring_0_length by lia. apply N2Nat.id.
  + apply substring_0_prefix.
- intros self bug event w h first_comment others Hfetch.
  rewrite (run_create_and_link _ _ _ _ _ _ _ Hfetch).
  eexists. 
  destruct (w _ (create_issue _)) as [r|e].
  + destruct (emits_link_created (λ _, True) self bug event r)
      with (w := w)
           (h := h ++ [get_comments (id bug);
                       create_issue
                         (creation_fields self bug
                            (str_prefix JIRA_DESCRIPTION_CHAR_LIMIT
                               (text first_comment)))])
      as (t & Ht & _); try (intros; exact I).
    exists t. split.
    * etransitivity; [exact Ht|]. rewrite <- app_assoc. reflexivity.
    * unfold creation_fields, jira_fields.
      destruct (sync_whiteboard_labels self); reflexivity.
  + exists []. split; [reflexivity|].
    unfold creation_fields, jira_fields.
    destruct (sync_whiteboard_labels self); reflexivity.
- intros self bug event key w h Hkey Hne result.
  unfold result. rewrite (bug_update_path _ _ _ _ Hkey Hne).
  set (update := update_issue_field (PyStr key) (jira_fields self bug)).
  set (comments := jira_comments_for_update self bug event).
  rewrite run_bind. run_remote.
  destruct (w h update) as [r|e]; cbv beta iota.
  2:{ exists [update]. split; [reflexivity|]. split; [apply prefix_nil|].
      intros x Habs. discriminate Habs. }
  rewrite run_bind.
  destruct (run_posts (PyStr key) comments w (h ++ [update])) as (n & Htrace & Hall).
  cbv zeta in Htrace, Hall.
  destruct (run (for_append _ comments) w (h ++ [update])) as [h2 [rs|e]];
    simpl in Htrace, Hall; subst h2.
  2:{ exists (update :: map (issue_add_comment (PyStr key)) (take n comments)).
      rewrite <- app_assoc. split; [reflexivity|].
      simpl. rewrite posted_posts. split; [apply prefix_take|].
      intros x Habs. discriminate Habs. }
  rewrite (Hall rs eq_refl). rewrite run_bind.
  destruct (emits_update_issue self bug event (PyStr key) false w
              (h ++ [update] ++ map (issue_add_comment (PyStr key)) comments))
    as (t & Ht & Hhook).
  rewrite <- app_assoc.
  exists (update :: map (issue_add_comment (PyStr key)) comments ++ t).
  assert (Hposted :
    omap posted_comment (update :: map (issue_add_comment (PyStr key)) comments ++ t)
    = comments).
  { simpl. rewrite omap_app, posted_posts, (posted_hook_calls _ _ Hhook).
    apply app_nil_r. }
  rewrite Hposted. split; [|split; [reflexivity|intros; reflexivity]].
  destruct (run (update_issue _ _ _ _ _) w _) as [h3 [[]|e]];
    simpl in Ht |- *; rewrite Ht, <- app_assoc; reflexivity.
Qed.

(** C6: with [sync_whiteboard_labels] false, neither the update payload nor
    the creation payload has a ["labels"] key, and no call made by
    [__call__], whatever the bug, the event and the answers, carries a
    payload with that key; with the flag true, both payloads map ["labels"]
    to the labels of the bug. *)
Theorem labels_follow_flag self :
  (sync_whiteboard_labels self = false →
   (∀ bug description,
      dict_get "labels" (jira_fields self bug) = None
      ∧ dict_get "labels" (creation_fields self bug description) = None)
   ∧ ∀ bug event, emits without_labels (call_ self bug event))
  ∧ (sync_whiteboard_labels self = true →
     ∀ bug description,
       dict_get "labels" (jira_fields self bug)
         = Some (PyList (map PyStr (get_jira_labels bug)))
       ∧ dict_get "labels" (creation_fields self bug description)
         = Some (PyList (map PyStr (get_jira_labels bug)))).
Proof.
split; intros Hflag.
- assert (Hpayloads : ∀ bug description,
            dict_get "labels" (jira_fields self bug) = None
            ∧ dict_get "labels" (creation_fields self bug description) = None).
  { intros bug description. unfold creation_fields, jira_fields.
    rewrite Hflag. split; reflexivity. }
  split; [exact Hpayloads|].
  intros bug event. unfold call_, comment_create_or_noop, bug_create_or_update.
  repeat emits_step.
  + intros fields Hf. discriminate Hf.
  + apply emits_create_and_link.
    * intros i fields Hf. discriminate Hf.
    * intros description fields Hf. injection Hf as <-.
      exact (proj2 (Hpayloads bug description)).
    * intros i fields Hf. discriminate Hf.
    * intros k fields Hf. discriminate Hf.
    * intros i urls fields Hf. discriminate Hf.
    * intros k url title fields Hf. discriminate Hf.
    * exact hook_call_without_labels.
  + intros fields Hf. injection Hf as <-. exact (proj1 (Hpayloads bug "")).
  + intros fields Hf. discriminate Hf.
  + eapply emits_impl; [|apply emits_update_issue].
    apply hook_call_without_labels.
- intros bug description. unfold creation_fields, jira_fields.
  rewrite Hflag. split; reflexivity.
Qed.

End CreationPath.

(** ** The status rule *)

Section StatusRule.
Context `{models : Models} `{settings : Settings}.

(** Without a non-empty value from either lookup the status rule does
    nothing, whether its condition holds or not. *)
Lemma run_update_status_miss sm rm bug changed key is_new (w : World) h :
  opt_truthy (map_get rm (resolution bug)) = false →
  opt_truthy (map_get sm (py_or (resolution bug) (status bug))) = false →
  run (update_status sm rm bug changed key is_new) w h = (h, Returns tt).
Proof.
intros Hres Hstatus. unfold update_status.
destruct (is_new || str_in "status" changed || str_in "resolution" changed);
  [|reflexivity].
cbv zeta. rewrite run_bind.
destruct (map_get rm (resolution bug)) as [r|]; simpl in Hres.
- rewrite Hres, run_ret.
  destruct (map_get sm _) as [s|]; simpl in Hstatus; [|reflexivity].
  rewrite Hstatus. reflexivity.
- rewrite run_ret.
  destruct (map_get sm _) as [s|]; simpl in Hstatus; [|reflexivity].
  rewrite Hstatus. reflexivity.
Qed.

(** C7 (amended): when the status rule runs, (1) a resolution mapped to a
    non-empty value is written with [update_issue_field] as the first call;
    (2) the key looked up in the status map is the bug's resolution when
    that is non-empty and its status otherwise; (3) a key mapped to a
    non-empty value there makes [set_issue_status] the last call of the
    rule, after the resolution update if there was one and it returned;
    (4) when neither lookup gives a non-empty value (in particular when
    both keys are absent) the rule makes no call and returns normally;
    (5) in that case an update event that leaves the assignee alone, and
    whose field update and comment posts return, ends after the posts with
    a result [(True, ...)]. *)
Theorem status_rule_lookups sm rm bug changed key is_new (w : World) h :
  is_new = true ∨ "status" ∈ changed ∨ "resolution" ∈ changed →
  let jira_resolution := map_get rm (resolution bug) in
  let bz_status := py_or (resolution bug) (status bug) in
  let jira_status := map_get sm bz_status in
  let set r := update_issue_field key [("resolution", PyStr r)] in
  let transition s := set_issue_status key s in
  let result := run (update_status sm rm bug changed key is_new) w h in
  (∀ r, jira_resolution = Some r → r ≠ "" → ∃ t, result.1 = h ++ set r :: t)
  ∧ ((∀ b, resolution bug = Some b → b ≠ "" → bz_status = Some b)
     ∧ (resolution bug = None ∨ resolution bug = Some "" → bz_status = status bug))
  ∧ (∀ s, jira_status = Some s → s ≠ "" →
       (opt_truthy jira_resolution = false →
        result = (h ++ [transition s], discard (w h (transition s))))
       ∧ (∀ r x, jira_resolution = Some r → r ≠ "" → w h (set r) = Returns x →
          result = (h ++ [set r; transition s],
                    discard (w (h ++ [set r]) (transition s)))))
  ∧ (opt_truthy jira_resolution = false → opt_truthy jira_status = false →
     result = (h, Returns tt))
  ∧ (opt_truthy jira_resolution = false → opt_truthy jira_status = false →
     ∀ self event linked (w0 : World) h0 r0,
       class_of self = AssigneeAndStatusExecutor sm rm →
       extract_from_see_also bug = Some linked →
       linked ≠ "" →
       default [] (changed_fields event) = changed →
       "assigned_to" ∉ changed →
       let update := update_issue_field (PyStr linked) (jira_fields self bug) in
       let post := issue_add_comment (PyStr linked) in
       w0 h0 update = Returns r0 →
       (∀ h' c, ∃ x, w0 h' (post c) = Returns x) →
       ∃ responses,
         run (bug_create_or_update self bug event) w0 h0 =
           (h0 ++ update :: map post (jira_comments_for_update self bug event),
            Returns (true, responses))).
Proof.
  intros Hfires jira_resolution bz_status jira_status set transition result.
  unfold result. rewrite (run_update_status _ _ _ _ _ _ _ _ Hfires).
  fold bz_status jira_resolution jira_status. cbv zeta.
  split; [|split; [split|split; [|split]]].
  - intros r Hr Hne. rewrite Hr. apply str_truthy_true in Hne. rewrite Hne.
    fold (set r). destruct (w h (set r)).
    + destruct jira_status as [s|]; [destruct (str_truthy s)|].
      * exists [set_issue_status key s]. simpl. rewrite <- app_assoc. reflexivity.
      * exists []. reflexivity.
      * exists []. reflexivity.
    + exists []. reflexivity.
  - intros b Hb Hne. unfold bz_status, py_or.
    rewrite (opt_truthy_Some_true _ _ Hb Hne). exact Hb.
  - intros Hempty. apply opt_truthy_false in Hempty.
    unfold bz_status, py_or. rewrite Hempty. reflexivity.
  - intros s Hs Hs_ne. apply str_truthy_true in Hs_ne. split.
    + intros Hnone. rewrite Hs, Hs_ne.
      destruct jira_resolution as [r|]; [|reflexivity].
      simpl in Hnone. rewrite Hnone. reflexivity.
    + intros r x Hr Hne Hx. rewrite Hr, Hs. apply str_truthy_true in Hne.
      rewrite Hne. fold (set r). rewrite Hx, Hs_ne.
      rewrite <- app_assoc. reflexivity.
  - intros Hres Hstatus.
    assert (Hno : match jira_status with
                  | Some s =>
                      if str_truthy s
                      then (h ++ [set_issue_status key s],
                            discard (w h (set_issue_status key s)))
                      else (h, Returns tt)
                  | None => (h, Returns tt)
                  end = (h, Returns tt)).
    { destruct jira_status as [s|]; [|reflexivity].
      simpl in Hstatus. rewrite Hstatus. reflexivity. }
    destruct jira_resolution as [r|]; [|exact Hno].
    simpl in Hres. rewrite Hres. exact Hno.
- intros Hres Hstatus self event linked w0 h0 r0 Hclass Hlinked Hne Hchanged
    Hassignee Hupdate Hposts.
  destruct (run_bug_update_answered self bug event linked w0 h0 r0
              Hlinked Hne Hupdate Hposts) as (rs & _ & Hrun).
  cbv zeta in Hrun. rewrite Hrun.
  rewrite (update_issue_blocks _ _ _ _ _ _ _ Hclass), Hchanged.
  rewrite run_bind. unfold update_assignee.
  apply str_in_false in Hassignee. rewrite Hassignee. simpl orb. cbv iota.
  rewrite run_ret.
  rewrite (run_update_status_miss sm rm bug changed (PyStr linked) false w0 _
             Hres Hstatus).
  eexists. reflexivity.
Qed.

End StatusRule.

(** ** The theorems on the sample inputs *)

Section SampleRuns.
Import Sample.

Lemma duplicate_issue_deleted_sample :
  run (create_and_link_issue status_executor unlinked_bug bug_event)
    (quiet_world linked_bug (PyDict created)) []
  = ([get_comments 654321;
      create_issue (creation_fields status_executor unlinked_bug "Steps to reproduce");
      get_bug 654321;
      delete_issue (PyStr "JBI-2")],
     Returns (true, [("jira_response", PyNone)])).
Proof.
refine (duplicate_issue_deleted status_executor unlinked_bug bug_event
          (quiet_world linked_bug (PyDict created)) []
          first_comment [] (PyDict created) created linked_bug "JBI-1"
          eq_refl eq_refl (or_introl eq_refl) eq_refl eq_refl eq_refl _).
discriminate.
Defined.

Lemma linked_bug_is_updated_sample :
  ∃ t,
    (run (bug_create_or_update status_executor linked_bug bug_event)
       (quiet_world linked_bug (PyDict created)) []).1
    = [] ++ update_issue_field (PyStr "JBI-1") (jira_fields status_executor linked_bug) :: t
    ∧ Forall not_create_issue t.
Proof.
refine (proj1 (linked_bug_is_updated status_executor linked_bug bug_event "JBI-1"
                 (quiet_world linked_bug (PyDict created)) [] eq_refl _)).
discriminate.
Defined.

Lemma create_response_errors_abort_sample :
  run (create_and_link_issue default_executor unlinked_bug bug_event)
    (quiet_world unlinked_bug (PyList [PyDict rejected])) []
  = ([get_comments 654321;
      create_issue (creation_fields default_executor unlinked_bug "Steps to reproduce")],
     Raises (ActionError (PyDict rejected))).
Proof.
refine (create_response_errors_abort default_executor unlinked_bug bug_event
          (quiet_world unlinked_bug (PyList [PyDict rejected])) []
          first_comment [] (PyList [PyDict rejected]) rejected
          eq_refl eq_refl (or_intror (ex_intro _ [] eq_refl)) _).
exists "errors", (PyDict [("summary", PyStr "You must specify a summary.")]).
split; [left; reflexivity|]. split; reflexivity.
Defined.

Lemma comment_noop_sample :
  run (comment_create_or_noop default_executor unlinked_bug comment_event)
    (quiet_world unlinked_bug (PyDict created)) []
  = ([], Returns (false, [])).
Proof.
exact (proj1 (comment_noop default_executor unlinked_bug comment_event
                (quiet_world unlinked_bug (PyDict created)) []
                (or_introl eq_refl))).
Defined.

Lemma description_cut_comments_whole_sample :
  ∃ fields t,
    (run (create_and_link_issue default_executor unlinked_bug bug_event)
       (quiet_world unlinked_bug (PyDict created)) []).1
    = [] ++ get_comments 654321 :: create_issue fields :: t
    ∧ dict_get "description" fields
      = Some (PyStr (str_prefix JIRA_DESCRIPTION_CHAR_LIMIT "Steps to reproduce")).
Proof.
exact (proj1 (proj2 (proj2 description_cut_comments_whole))
         default_executor unlinked_bug bug_event
         (quiet_world unlinked_bug (PyDict created)) [] first_comment [] eq_refl).
Defined.

Lemma labels_follow_flag_sample :
  dict_get "labels" (jira_fields status_executor linked_bug) = None
  ∧ dict_get "labels" (creation_fields status_executor linked_bug "text") = None.
Proof.
exact (proj1 (proj1 (labels_follow_flag status_executor) eq_refl) linked_bug "text").
Defined.

Lemma status_rule_lookups_sample :
  run (update_status status_names resolution_names linked_bug
         ["status"; "resolution"] (PyStr "JBI-1") false)
    (quiet_world linked_bug (PyDict created)) []
  = ([update_issue_field (PyStr "JBI-1") [("resolution", PyStr "Done")];
      set_issue_status (PyStr "JBI-1") "Closed"],
     Returns tt).
Proof.
refine (proj2 (proj1 (proj2 (proj2
          (status_rule_lookups status_names resolution_names linked_bug
             ["status"; "resolution"] (PyStr "JBI-1") false
             (quiet_world linked_bug (PyDict created)) [] _)))
          "Closed" eq_refl _)
        "Done" PyNone eq_refl _ eq_refl).
- right. left. constructor.
- discriminate.
- discriminate.
Defined.

(** C7, as stated, fails on a resolution present in the map with an empty
    value: [if jira_resolution:] is false for it, and nothing is written. *)
Lemma blank_resolution_not_written :
  resolution linked_bug = Some "FIXED"
  ∧ blank_resolution_names !! "FIXED" = Some ""
  ∧ run (update_status ∅ blank_resolution_names linked_bug
           ["resolution"] (PyStr "JBI-1") false)
      (quiet_world linked_bug (PyDict created)) []
    = ([], Returns tt)
  ∧ ¬ ∃ t,
        (run (update_status ∅ blank_resolution_names linked_bug
                ["resolution"] (PyStr "JBI-1") false)
           (quiet_world linked_bug (PyDict created)) []).1
        = [] ++ update_issue_field (PyStr "JBI-1") [("resolution", PyStr "")] :: t.
Proof.
split; [reflexivity|]. split; [reflexivity|]. split; [reflexivity|].
intros (t & Ht). discriminate Ht.
Qed.

Lemma assignee_lookup_fallback_sample :
  run (update_assignee linked_bug ["assigned_to"] (PyStr "JBI-1") false)
    (flaky_world linked_bug (PyDict created)) []
  = ([user_find_by_user_string (Some "dev@example.com");
      update_issue_field (PyStr "JBI-1")
        [("assignee", PyDict [("accountId", PyStr "5b10ac8d82e05b22cc7d4ef5")])];
      update_issue_field (PyStr "JBI-1") [("assignee", PyNone)]],
     Returns tt)
  ∧ run (update_assignee linked_bug ["assigned_to"] (PyStr "JBI-1") false)
      (unknown_user_world linked_bug (PyDict created)) []
    = ([user_find_by_user_string (Some "dev@example.com");
        update_issue_field (PyStr "JBI-1") [("assignee", PyNone)]],
       Returns tt).
Proof.
split.
- refine (proj1 (assignee_lookup_fallback linked_bug ["assigned_to"] (PyStr "JBI-1")
                   false (flaky_world linked_bug (PyDict created)) [] _ _)
            [("accountId", PyStr "5b10ac8d82e05b22cc7d4ef5")]
            (PyStr "5b10ac8d82e05b22cc7d4ef5") eq_refl eq_refl).
  + discriminate.
  + right. constructor.
- refine (proj2 (assignee_lookup_fallback linked_bug ["assigned_to"] (PyStr "JBI-1")
                   false (unknown_user_world linked_bug (PyDict created)) [] _ _)
            [] eq_refl _ eq_refl).
  + discriminate.
  + right. constructor.
  + discriminate.
Defined.

Lemma sentinel_assignee_cleared_sample :
  run (update_assignee unlinked_bug ["assigned_to"] (PyStr "JBI-1") false)
    (quiet_world unlinked_bug (PyDict created)) []
  = ([update_issue_field (PyStr "JBI-1") [("assignee", PyNone)]], Returns tt).
Proof.
refine (sentinel_assignee_cleared unlinked_bug ["assigned_to"] (PyStr "JBI-1") false
          (quiet_world unlinked_bug (PyDict created)) [] eq_refl _).
right. constructor.
Defined.

Lemma call_ignores_other_targets_sample :
  run (call_ default_executor linked_bug attachment_event)
    (quiet_world linked_bug (PyDict created)) []
  = ([], Returns (false, [])).
Proof.
refine (call_ignores_other_targets default_executor linked_bug attachment_event
          (quiet_world linked_bug (PyDict created)) [] _ _); discriminate.
Defined.

End SampleRuns.


(** * Further properties of the two modules *)

(** ** Events on a linked bug *)

Section LinkedEvents.
Context `{models : Models} `{settings : Settings}.

(** X1: a comment event on a bug that is linked (non-empty key) and carries
    a comment makes exactly one call, [issue_add_comment] on the linked issue
    with the mapped comment; the result is [(True, {"jira_response": r})]
    with the answer [r] of that call, and an exception of the call is
    raised. *)
Theorem comment_posted self bug event key payload (w : World) h :
  target event = Some "comment" →
  extract_from_see_also bug = Some key →
  key ≠ "" →
  comment bug = Some payload →
  let post := issue_add_comment (PyStr key) (map_event_as_comment bug event) in
  run (call_ self bug event) w h =
    (h ++ [post],
     match w h post with
     | Returns jira_response => Returns (true, [("jira_response", jira_response)])
     | Raises e => Raises e
     end).
Proof.
intros Htarget Hkey Hne Hcomment post.
rewrite (call_comment _ _ _ Htarget). unfold comment_create_or_noop.
rewrite Hkey, Hcomment. simpl opt_truthy.
apply str_truthy_true in Hne. rewrite Hne. simpl negb. cbv iota zeta.
rewrite run_bind. run_remote. simpl of_opt_str. fold post.
destruct (w h post); reflexivity.
Qed.

(** X2: whatever the event and the answers, [__call__] on a bug linked to
    [key] only calls [update_issue_field] and [issue_add_comment] on [key]
    and what the hook calls: it never reads or writes Bugzilla, and never
    creates, deletes or links an issue. *)
Theorem linked_bug_only_updated self bug event key :
  extract_from_see_also bug = Some key →
  key ≠ "" →
  emits (is_update_call (PyStr key)) (call_ self bug event).
Proof.
intros Hkey Hne. apply str_truthy_true in Hne.
unfold call_, comment_create_or_noop, bug_create_or_update.
rewrite Hkey. simpl opt_truthy. rewrite Hne. simpl negb. simpl of_opt_str.
repeat emits_step.
- right. left. eexists. reflexivity.
- left. eexists. reflexivity.
- right. left. eexists. reflexivity.
- eapply emits_impl; [|apply emits_update_issue].
  intros c Hc. right. right. exact Hc.
Qed.

(** X3: when the field update of a linked bug raises, [bug_create_or_update]
    raises the same exception: that call is the only one made, no comment is
    posted and the hook is not run. *)
Theorem failed_update_stops self bug event key (w : World) h e :
  extract_from_see_also bug = Some key →
  key ≠ "" →
  let update := update_issue_field (PyStr key) (jira_fields self bug) in
  w h update = Raises e →
  run (bug_create_or_update self bug event) w h = (h ++ [update], Raises e).
Proof.
intros Hkey Hne update Hupdate.
rewrite (bug_update_path _ _ _ _ Hkey Hne).
rewrite run_bind. run_remote. fold update. rewrite Hupdate. reflexivity.
Qed.

(** X4: with the default executor, whose hook does nothing, a bug event on
    a linked bug whose calls all return makes exactly the field update and
    one post per mapped comment (mapped without the two keyword arguments),
    and results in [(True, {"jira_responses": [r, rs]})] with one answer in
    [rs] per comment. *)
Theorem default_update_trace self bug event key (w : World) h r :
  class_of self = DefaultExecutor →
  target event = Some "bug" →
  extract_from_see_also bug = Some key →
  key ≠ "" →
  let update := update_issue_field (PyStr key) (jira_fields self bug) in
  let post := issue_add_comment (PyStr key) in
  let comments := map_changes_as_comments bug event None None in
  w h update = Returns r →
  (∀ h' c, ∃ x, w h' (post c) = Returns x) →
  ∃ rs,
    List.length rs = List.length comments
    ∧ run (call_ self bug event) w h =
        (h ++ update :: map post comments,
         Returns (true, [("jira_responses", PyList [r; PyList rs])])).
Proof.
intros Hclass Htarget Hkey Hne update post comments Hupdate Hposts.
rewrite (call_bug _ _ _ Htarget).
destruct (run_bug_update_answered self bug event key w h r Hkey Hne Hupdate Hposts)
  as (rs & Hlen & Hrun).
cbv zeta in Hrun. rewrite Hrun.
unfold jira_comments_for_update in *. unfold update_issue.
rewrite Hclass in *. exists rs. split; [exact Hlen|]. reflexivity.
Qed.

End LinkedEvents.

(** ** Events on a bug that is not linked *)

Lemma substring_0_length_le n s : (String.length (substring 0 n s) ≤ n)%nat.
Proof.
revert n. induction s as [|a s IH]; intros [|n]; simpl; try lia.
specialize (IH n). lia.
Qed.

Lemma has_errors_false d :
  has_errors d = false ↔
  ∀ element v,
    element = "errors" ∨ element = "errorMessages" →
    dict_get element d = Some v → truthy v = false.
Proof.
split.
- intros Hclean element v Hname Hget.
  destruct (truthy v) eqn:Htruthy; [|reflexivity].
  assert (Herr : has_errors d = true)
    by (apply has_errors_true; exists element, v; auto).
  congruence.
- intros Hall. destruct (has_errors d) eqn:Herr; [|reflexivity].
  apply has_errors_true in Herr as (element & v & Hname & Hget & Htruthy).
  rewrite (Hall element v Hname Hget) in Htruthy. discriminate.
Qed.

Section UnlinkedEvents.
Context `{models : Models} `{settings : Settings}.

(** The checks of the answer of [create_issue] make no call: they raise, or
    hand the key over. *)
Lemma link_created_issue_cases self bug event response :
  (∃ e, ∀ (w : World) h,
     run (link_created_issue self bug event response) w h = (h, Raises e))
  ∨ (∃ key, ∀ (w : World) h,
       run (link_created_issue self bug event response) w h
       = run (link_issue_key self bug event key) w h).
Proof.
assert (Hdict : ∀ d,
  (∃ e, ∀ (w : World) h,
     run (link_created_issue self bug event (PyDict d)) w h = (h, Raises e))
  ∨ (∃ key, ∀ (w : World) h,
       run (link_created_issue self bug event (PyDict d)) w h
       = run (link_issue_key self bug event key) w h)).
{ intros d. destruct (has_errors d) eqn:Herr.
  - left. exists (ActionError (PyDict d)). intros w h.
    unfold link_created_issue. simpl first_if_list. rewrite run_ret_bind.
    unfold check_errors. rewrite Herr. reflexivity.
  - right. exists (dict_get_default "key" d). intros w h.
    unfold link_created_issue. simpl first_if_list. rewrite run_ret_bind.
    unfold check_errors. rewrite Herr. reflexivity. }
destruct response as [| | | |l|d]; try (left; exists AttributeError; reflexivity).
- destruct l as [|x l]; [left; exists IndexError; reflexivity|].
  destruct x as [| | | |l'|d];
    try (left; exists AttributeError; reflexivity).
  destruct (Hdict d) as [(e & He) | (key & Hk)].
  + left. exists e. intros w h. rewrite <- (He w h). reflexivity.
  + right. exists key. intros w h. rewrite <- (Hk w h). reflexivity.
- apply Hdict.
Qed.

Lemma run_link_created_clean self bug event response d (w : World) h :
  answers_record response d →
  has_errors d = false →
  run (link_created_issue self bug event response) w h
  = run (link_issue_key self bug event (dict_get_default "key" d)) w h.
Proof.
intros Hrecord Hclean. rewrite (run_link_created _ _ _ _ _ _ _ Hrecord).
unfold link_created_issue. simpl first_if_list. rewrite run_ret_bind.
unfold check_errors. rewrite Hclean. reflexivity.
Qed.

(** Without a duplicate: the link on the bug, the link on the issue, the
    hook. *)
Lemma run_link_issue_key self bug event key refetched (w : World) h :
  let refetch := get_bug (id bug) in
  let link_bug :=
    update_bug (id refetched)
      [(jira_base_url ++ "browse/" ++ py_format key)%string] in
  let bugzilla_url :=
    (bugzilla_base_url ++ "/show_bug.cgi?id=" ++ py_format (PyInt (id refetched)))%string in
  let link_issue := create_or_update_issue_remote_links key bugzilla_url bugzilla_url in
  w h refetch = Returns refetched →
  (∀ k1, extract_from_see_also refetched = Some k1 → key = PyStr k1) →
  run (link_issue_key self bug event key) w h =
    match w (h ++ [refetch]) link_bug with
    | Raises e => (h ++ [refetch; link_bug], Raises e)
    | Returns bugzilla_response =>
        match w (h ++ [refetch; link_bug]) link_issue with
        | Raises e => (h ++ [refetch; link_bug; link_issue], Raises e)
        | Returns jira_response =>
            let hook :=
              run (update_issue self refetched event key true) w
                (h ++ [refetch; link_bug; link_issue]) in
            (hook.1,
             match hook.2 with
             | Returns _ =>
                 Returns (true, [("bugzilla_response", bugzilla_response);
                                 ("jira_response", jira_response)])
             | Raises e => Raises e
             end)
        end
    end.
Proof.
intros refetch link_bug bugzilla_url link_issue Hrefetch Hsame.
unfold link_issue_key. rewrite run_bind. run_remote. fold refetch.
rewrite Hrefetch. cbv beta iota zeta.
assert (Hfresh :
  match extract_from_see_also refetched with
  | Some k => negb (py_eq_str key k)
  | None => false
  end = false).
{ destruct (extract_from_see_also refetched) as [k1|]; [|reflexivity].
  rewrite (Hsame k1 eq_refl). simpl. rewrite String.eqb_refl. reflexivity. }
rewrite Hfresh. rewrite run_bind. run_remote. fold link_bug.
rewrite <- app_assoc. simpl app.
destruct (w (h ++ [refetch]) link_bug) as [bugzilla_response|e]; [|reflexivity].
rewrite run_bind. run_remote. fold bugzilla_url link_issue.
rewrite <- app_assoc. simpl app.
destruct (w (h ++ [refetch; link_bug]) link_issue) as [jira_response|e];
  [|reflexivity].
rewrite run_bind.
destruct (run (update_issue _ _ _ _ _) w _) as [h' [[]|e]]; reflexivity.
Qed.

(** A bug event on a bug without link, up to the accepted answer of
    [create_issue]. *)
Lemma run_call_created self bug event (w : World) h first_comment others response d :
  let fetch := get_comments (id bug) in
  let create :=
    create_issue
      (creation_fields self bug
         (str_prefix JIRA_DESCRIPTION_CHAR_LIMIT (text first_comment))) in
  target event = Some "bug" →
  opt_truthy (extract_from_see_also bug) = false →
  w h fetch = Returns (first_comment :: others) →
  w (h ++ [fetch]) create = Returns response →
  answers_record response d →
  has_errors d = false →
  run (call_ self bug event) w h
  = run (link_issue_key self bug event (dict_get_default "key" d)) w
      (h ++ [fetch; create]).
Proof.
intros fetch create Htarget Hunlinked Hfetch Hcreate Hrecord Hclean.
rewrite (call_bug _ _ _ Htarget), (bug_creation_path _ _ _ Hunlinked).
rewrite (run_create_and_link _ _ _ _ _ _ _ Hfetch).
fold fetch create. rewrite Hcreate.
apply run_link_created_clean; assumption.
Qed.

End UnlinkedEvents.

Section Creation.
Context `{models : Models} `{settings : Settings}.

(** X5: a bug event on a bug without link, when the created issue is
    accepted (only empty [errors] and [errorMessages], if any) and the bug
    read again has no link or the link to the created key, links the two:
    after reading the comments, creating the issue and reading the bug, the
    issue URL is added to the bug of the second read, then the bug URL is put
    on the issue as link and title, then the hook runs on the bug of the
    second read with [is_new=True]; the result is
    [(True, {"bugzilla_response": ..., "jira_response": ...})] unless the
    hook raises. *)
Theorem new_issue_linked
    self bug event (w : World) h first_comment others response d refetched
    bugzilla_response jira_response :
  let fetch := get_comments (id bug) in
  let create :=
    create_issue
      (creation_fields self bug
         (str_prefix JIRA_DESCRIPTION_CHAR_LIMIT (text first_comment))) in
  let key := dict_get_default "key" d in
  let refetch := get_bug (id bug) in
  let link_bug :=
    update_bug (id refetched)
      [(jira_base_url ++ "browse/" ++ py_format key)%string] in
  let bugzilla_url :=
    (bugzilla_base_url ++ "/show_bug.cgi?id=" ++ py_format (PyInt (id refetched)))%string in
  let link_issue := create_or_update_issue_remote_links key bugzilla_url bugzilla_url in
  target event = Some "bug" →
  opt_truthy (extract_from_see_also bug) = false →
  w h fetch = Returns (first_comment :: others) →
  w (h ++ [fetch]) create = Returns response →
  answers_record response d →
  (∀ element v,
     element = "errors" ∨ element = "errorMessages" →
     dict_get element d = Some v → truthy v = false) →
  w (h ++ [fetch; create]) refetch = Returns refetched →
  (∀ k1, extract_from_see_also refetched = Some k1 → key = PyStr k1) →
  w (h ++ [fetch; create; refetch]) link_bug = Returns bugzilla_response →
  w (h ++ [fetch; create; refetch; link_bug]) link_issue = Returns jira_response →
  let hook :=
    run (update_issue self refetched event key true) w
      (h ++ [fetch; create; refetch; link_bug; link_issue]) in
  run (call_ self bug event) w h =
    (hook.1,
     match hook.2 with
     | Returns _ =>
         Returns (true, [("bugzilla_response", bugzilla_response);
                         ("jira_response", jira_response)])
     | Raises e => Raises e
     end).
Proof.
intros fetch create key refetch link_bug bugzilla_url link_issue
  Htarget Hunlinked Hfetch Hcreate Hrecord Hclean Hrefetch Hsame Hbug Hissue hook.
apply has_errors_false in Hclean.
rewrite (run_call_created _ _ _ _ _ _ _ _ _
           Htarget Hunlinked Hfetch Hcreate Hrecord Hclean).
fold fetch create key.
rewrite (run_link_issue_key _ _ _ _ _ _ _ Hrefetch Hsame).
fold refetch link_bug bugzilla_url link_issue.
rewrite <- !app_assoc. simpl app. rewrite Hbug, Hissue. reflexivity.
Qed.

(** X6: in the same situation, when the link cannot be written on the bug
    the exception is raised and no link is put on the issue; when the link
    cannot be put on the issue the exception is raised and the hook is not
    run.  The created issue is not deleted in either case. *)
Theorem failed_link_stops
    self bug event (w : World) h first_comment others response d refetched :
  let fetch := get_comments (id bug) in
  let create :=
    create_issue
      (creation_fields self bug
         (str_prefix JIRA_DESCRIPTION_CHAR_LIMIT (text first_comment))) in
  let key := dict_get_default "key" d in
  let refetch := get_bug (id bug) in
  let link_bug :=
    update_bug (id refetched)
      [(jira_base_url ++ "browse/" ++ py_format key)%string] in
  let bugzilla_url :=
    (bugzilla_base_url ++ "/show_bug.cgi?id=" ++ py_format (PyInt (id refetched)))%string in
  let link_issue := create_or_update_issue_remote_links key bugzilla_url bugzilla_url in
  target event = Some "bug" →
  opt_truthy (extract_from_see_also bug) = false →
  w h fetch = Returns (first_comment :: others) →
  w (h ++ [fetch]) create = Returns response →
  answers_record response d →
  has_errors d = false →
  w (h ++ [fetch; create]) refetch = Returns refetched →
  (∀ k1, extract_from_see_also refetched = Some k1 → key = PyStr k1) →
  (∀ e,
     w (h ++ [fetch; create; refetch]) link_bug = Raises e →
     run (call_ self bug event) w h
     = (h ++ [fetch; create; refetch; link_bug], Raises e))
  ∧ (∀ bugzilla_response e,
       w (h ++ [fetch; create; refetch]) link_bug = Returns bugzilla_response →
       w (h ++ [fetch; create; refetch; link_bug]) link_issue = Raises e →
       run (call_ self bug event) w h
       = (h ++ [fetch; create; refetch; link_bug; link_issue], Raises e)).
Proof.
intros fetch create key refetch link_bug bugzilla_url link_issue
  Htarget Hunlinked Hfetch Hcreate Hrecord Hclean Hrefetch Hsame.
rewrite (run_call_created _ _ _ _ _ _ _ _ _
           Htarget Hunlinked Hfetch Hcreate Hrecord Hclean).
fold fetch create key.
rewrite (run_link_issue_key _ _ _ _ _ _ _ Hrefetch Hsame).
fold refetch link_bug bugzilla_url link_issue.
rewrite <- !app_assoc. simpl app. split.
- intros e Hbug. rewrite Hbug. reflexivity.
- intros bugzilla_response e Hbug Hissue. rewrite Hbug, Hissue. reflexivity.
Qed.

(** X7: a bug event on a bug without link and without any comment raises
    [IndexError] right after reading the comments: no issue is created. *)
Theorem no_comment_no_issue self bug event (w : World) h :
  target event = Some "bug" →
  opt_truthy (extract_from_see_also bug) = false →
  w h (get_comments (id bug)) = Returns [] →
  run (call_ self bug event) w h = (h ++ [get_comments (id bug)], Raises IndexError).
Proof.
intros Htarget Hunlinked Hfetch.
rewrite (call_bug _ _ _ Htarget), (bug_creation_path _ _ _ Hunlinked).
unfold create_and_link_issue. rewrite run_bind. run_remote.
rewrite Hfetch. reflexivity.
Qed.

(** X8: an answer of [create_issue] from which no key can be read ends
    [create_and_link_issue] right after the creation, with the issue left
    unlinked: an empty list raises [IndexError]; an answer that is neither a
    list nor a record, or a list whose first element is not a record, raises
    [AttributeError]. *)
Theorem unreadable_create_response
    self bug event (w : World) h first_comment others response :
  let fetch := get_comments (id bug) in
  let create :=
    create_issue
      (creation_fields self bug
         (str_prefix JIRA_DESCRIPTION_CHAR_LIMIT (text first_comment))) in
  w h fetch = Returns (first_comment :: others) →
  w (h ++ [fetch]) create = Returns response →
  (response = PyList [] →
   run (create_and_link_issue self bug event) w h
   = (h ++ [fetch; create], Raises IndexError))
  ∧ ((∀ l, response ≠ PyList l) → (∀ d, response ≠ PyDict d) →
     run (create_and_link_issue self bug event) w h
     = (h ++ [fetch; create], Raises AttributeError))
  ∧ (∀ x rest, response = PyList (x :: rest) → (∀ d, x ≠ PyDict d) →
     run (create_and_link_issue self bug event) w h
     = (h ++ [fetch; create], Raises AttributeError)).
Proof.
intros fetch create Hfetch Hcreate.
rewrite (run_create_and_link _ _ _ _ _ _ _ Hfetch).
fold fetch create. rewrite Hcreate. split; [|split].
- intros ->. reflexivity.
- intros Hlist Hdict.
  destruct response as [| | | |l|d]; try reflexivity.
  + destruct (Hlist l eq_refl).
  + destruct (Hdict d eq_refl).
- intros x rest -> Hdict.
  destruct x as [| | | |l|d]; try reflexivity.
  destruct (Hdict d eq_refl).
Qed.

Lemma link_issue_key_tail self bug event key (w : World) h :
  ∃ tail,
    (run (link_issue_key self bug event key) w h).1 = h ++ get_bug (id bug) :: tail
    ∧ is_link_tail tail.
Proof.
unfold link_issue_key. rewrite run_bind. run_remote.
destruct (w h (get_bug (id bug))) as [refetched|e].
2:{ exists []. split; [reflexivity|]. left. reflexivity. }
cbv beta iota zeta.
destruct (match extract_from_see_also refetched with
          | Some k => negb (py_eq_str key k)
          | None => false
          end).
- rewrite run_bind. run_remote. exists [delete_issue key]. split.
  + destruct (w _ (delete_issue key)); simpl; rewrite <- app_assoc; reflexivity.
  + right. left. exists key. reflexivity.
- rewrite run_bind. run_remote.
  set (link_bug := update_bug (id refetched) _).
  destruct (w _ link_bug) as [bugzilla_response|e].
  2:{ exists [link_bug]. split; [simpl; rewrite <- app_assoc; reflexivity|].
      right. right. left. eexists _, _. reflexivity. }
  cbv beta iota. rewrite run_bind. run_remote.
  set (link_issue := create_or_update_issue_remote_links key _ _).
  destruct (w _ link_issue) as [jira_response|e].
  2:{ exists [link_bug; link_issue]. split; [simpl; rewrite <- !app_assoc; reflexivity|].
      right. right. right. eexists _, _, _, _, []. split; [reflexivity|constructor]. }
  cbv beta iota. rewrite run_bind.
  destruct (emits_update_issue self refetched event key true w
              (((h ++ [get_bug (id bug)]) ++ [link_bug]) ++ [link_issue]))
    as (hook_calls & Hhook & Hcalls).
  exists (link_bug :: link_issue :: hook_calls). split.
  + destruct (run (update_issue _ _ _ _ _) w _) as [h' [[]|e]];
      simpl in Hhook |- *; rewrite Hhook, <- !app_assoc; reflexivity.
  + right. right. right. eexists _, _, _, _, hook_calls.
    split; [reflexivity|exact Hcalls].
Qed.

(** X9: whatever the answers, the calls of [create_and_link_issue] follow
    one order: read the comments, create one issue, read the bug again, then
    either delete the issue, or add the link to the bug, then to the issue,
    then run the hook; the run may stop after any of them.  So at most one
    issue is created, and none is both deleted and linked. *)
Theorem creation_order self bug event (w : World) h :
  ∃ t,
    (run (create_and_link_issue self bug event) w h).1 = h ++ t
    ∧ is_creation_trace (id bug) t.
Proof.
unfold create_and_link_issue. rewrite run_bind. run_remote.
destruct (w h (get_comments (id bug))) as [[|first_comment others]|e].
- exists [get_comments (id bug)]. split; [reflexivity|]. left. reflexivity.
- cbv beta iota. simpl first_item. rewrite run_ret_bind. cbv zeta.
  rewrite run_bind. run_remote.
  set (create := create_issue _).
  destruct (w _ create) as [response|e].
  2:{ exists [get_comments (id bug); create].
      split; [simpl; rewrite <- app_assoc; reflexivity|].
      right. left. eexists. reflexivity. }
  cbv beta iota.
  destruct (link_created_issue_cases self bug event response)
    as [(e & He) | (key & Hkey)].
  + rewrite He. exists [get_comments (id bug); create].
    split; [simpl; rewrite <- app_assoc; reflexivity|].
    right. left. eexists. reflexivity.
  + rewrite Hkey.
    destruct (link_issue_key_tail self bug event key w
                ((h ++ [get_comments (id bug)]) ++ [create]))
      as (tail & Htrace & Htail).
    exists (get_comments (id bug) :: create :: get_bug (id bug) :: tail).
    split; [rewrite Htrace, <- !app_assoc; reflexivity|].
    right. right. eexists _, tail. split; [reflexivity|exact Htail].
- exists [get_comments (id bug)]. split; [reflexivity|]. left. reflexivity.
Qed.

(** X10: whatever the bug, the event and the answers, every [create_issue]
    call made by [__call__] carries a [description] that is a string of at
    most 32767 characters. *)
Theorem description_never_too_long self bug event :
  emits description_within_limit (call_ self bug event).
Proof.
assert (Hother : ∀ key c, is_update_call key c → description_within_limit c).
{ intros key c [(? & ->) | [(? & ->) | [(? & ->) | [(? & ->) | [(? & ->) | (? & ->)]]]]]
    fields Hf; discriminate Hf. }
unfold call_, comment_create_or_noop, bug_create_or_update.
repeat emits_step.
- intros fields Hf. discriminate Hf.
- unfold create_and_link_issue, first_item. repeat emits_step.
  + intros fields Hf. discriminate Hf.
  + intros fields Hf. injection Hf as <-.
    eexists. split.
    * unfold creation_fields, jira_fields.
      destruct (sync_whiteboard_labels self); reflexivity.
    * unfold str_prefix.
      match goal with
      | |- context [substring 0 ?n ?s] => pose proof (substring_0_length_le n s)
      end.
      lia.
  + apply emits_link_created.
    * intros i fields Hf. discriminate Hf.
    * intros k fields Hf. discriminate Hf.
    * intros i urls fields Hf. discriminate Hf.
    * intros k url title fields Hf. discriminate Hf.
    * intros key c Hc. apply (Hother key). right. right. exact Hc.
- intros fields Hf. discriminate Hf.
- intros fields Hf. discriminate Hf.
- eapply emits_impl; [|apply emits_update_issue].
  intros c Hc. eapply Hother. right. right. exact Hc.
Qed.

End Creation.

(** ** Counting calls *)

Section Bounds.

Lemma bound_ret {A} n (a : A) : calls_at_most n (mret a).
Proof. intros w h. simpl. lia. Qed.

Lemma bound_raise {A} n (e : exn) : calls_at_most n (raise (A:=A) e).
Proof. intros w h. simpl. lia. Qed.

Lemma bound_remote n c : calls_at_most (S n) (remote c).
Proof. intros w h. simpl. rewrite length_app. simpl. lia. Qed.

Lemma bound_bind {A B} n1 n2 (m : M A) (f : A → M B) :
  calls_at_most n1 m → (∀ a, calls_at_most n2 (f a)) →
  calls_at_most (n1 + n2) (m ≫= f).
Proof.
intros Hm Hf w h. rewrite run_bind. specialize (Hm w h).
destruct (run m w h) as [h' [a|e]]; simpl in Hm.
- specialize (Hf a w h'). lia.
- simpl. lia.
Qed.

Lemma bound_try {A} n1 n2 (m : M A) handler :
  calls_at_most n1 m → (∀ e, calls_at_most n2 (handler e)) →
  calls_at_most (n1 + n2) (try_except_IOError m handler).
Proof.
intros Hm Hh w h. rewrite run_try. specialize (Hm w h).
destruct (run m w h) as [h' [a|e]]; simpl in Hm.
- simpl. lia.
- destruct (is_IOError e).
  + specialize (Hh e w h'). lia.
  + simpl. lia.
Qed.

Lemma bound_weaken {A} n n' (m : M A) :
  (n ≤ n')%nat → calls_at_most n m → calls_at_most n' m.
Proof. intros Hle Hm w h. specialize (Hm w h). lia. Qed.

Lemma bound_remote_discarded n c : calls_at_most (S n) (_ ← remote c; mret tt).
Proof.
intros w h. rewrite (run_discarded_remote c w h). simpl.
rewrite length_app. simpl. lia.
Qed.

Lemma bound_clear_assignee key is_new : calls_at_most 1 (clear_assignee key is_new).
Proof.
unfold clear_assignee. destruct is_new; simpl.
- apply bound_ret.
- exact (bound_remote_discarded 0 (update_issue_field _ _)).
Qed.

Lemma bound_update_assignee bug changed key is_new :
  calls_at_most 3 (update_assignee bug changed key is_new).
Proof.
unfold update_assignee.
destruct (is_new || str_in "assigned_to" changed); [|apply bound_ret].
destruct (opt_eq_str (assigned_to bug) "nobody@mozilla.org").
{ eapply bound_weaken; [|apply bound_clear_assignee]. lia. }
refine (bound_bind 1 2 (remote (user_find_by_user_string _)) _ (bound_remote 0 _) _).
intros users. apply (bound_bind 0 2).
{ unfold py_len. destruct users; first [apply bound_ret | apply bound_raise]. }
intros n. destruct (Nat.eqb n 1).
- apply (bound_try 1 1); [|intros e; apply bound_clear_assignee].
  apply (bound_bind 0 1).
  { unfold py_item0. destruct users as [| | |[|? ?]|[|? ?]|];
      first [apply bound_ret | apply bound_raise]. }
  intros user. apply (bound_bind 0 1).
  { unfold py_item. destruct user; try apply bound_raise.
    destruct (dict_get _ _); first [apply bound_ret | apply bound_raise]. }
  intros account_id.
  exact (bound_remote_discarded 0 (update_issue_field _ _)).
- eapply bound_weaken; [|apply bound_clear_assignee]. lia.
Qed.

Lemma bound_update_status sm rm bug changed key is_new :
  calls_at_most 2 (update_status sm rm bug changed key is_new).
Proof.
unfold update_status.
destruct (is_new || str_in "status" changed || str_in "resolution" changed);
  [|apply bound_ret].
cbv zeta. apply (bound_bind 1 1).
- destruct (map_get rm _) as [r|]; [|apply bound_ret].
  destruct (str_truthy r); [|apply bound_ret].
  exact (bound_remote_discarded 0 (update_issue_field _ _)).
- intros _. destruct (map_get sm _) as [s|]; [|apply bound_ret].
  destruct (str_truthy s); [|apply bound_ret].
  exact (bound_remote_discarded 0 (set_issue_status _ _)).
Qed.

End Bounds.

(** ** The hook of the subclass *)

Section Hook.
Context `{models : Models} `{settings : Settings}.

(** X11: whatever the answers, the hook makes at most five calls, all of
    them among: a user lookup, an update of the assignee or of the
    resolution of the issue, a status transition of the issue. *)
Theorem hook_calls_bounded self bug event key is_new (w : World) h :
  ∃ t,
    (run (update_issue self bug event key is_new) w h).1 = h ++ t
    ∧ Forall (is_hook_call key) t
    ∧ (List.length t ≤ 5)%nat.
Proof.
destruct (emits_update_issue self bug event key is_new w h) as (t & Ht & Hcalls).
exists t. split; [exact Ht|]. split; [exact Hcalls|].
assert (Hbound : calls_at_most 5 (update_issue self bug event key is_new)).
{ unfold update_issue. destruct (class_of self) as [|sm rm]; [apply bound_ret|].
  cbv zeta. apply (bound_bind 3 2).
  - apply bound_update_assignee.
  - intros _. apply bound_update_status. }
specialize (Hbound w h). rewrite Ht, length_app in Hbound. lia.
Qed.

(** X12: for an existing issue, an event that changes none of
    [assigned_to], [status] and [resolution] (or lists no change at all)
    makes the hook do nothing. *)
Theorem irrelevant_change_ignored self sm rm bug event key (w : World) h :
  class_of self = AssigneeAndStatusExecutor sm rm →
  (∀ field, field ∈ default [] (changed_fields event) →
            field ≠ "assigned_to" ∧ field ≠ "status" ∧ field ≠ "resolution") →
  run (update_issue self bug event key false) w h = (h, Returns tt).
Proof.
intros Hclass Hchanged.
rewrite (update_issue_blocks _ _ _ _ _ _ _ Hclass).
set (changed := default [] (changed_fields event)) in *.
assert (Hno : ∀ name,
          name = "assigned_to" ∨ name = "status" ∨ name = "resolution" →
          str_in name changed = false).
{ intros name Hname. apply str_in_false. intros Hin.
  destruct (Hchanged name Hin) as (Ha & Hs & Hr).
  destruct Hname as [-> | [-> | ->]]; congruence. }
unfold update_assignee, update_status.
rewrite !Hno by auto. reflexivity.
Qed.

(** X13: when the user lookup itself raises, be it an [IOError], the hook
    raises that exception after this one call: the fallback of the assignee
    rule only covers the call that sets the assignee, and the status rule is
    not run. *)
Theorem failed_lookup_raises self sm rm bug event key is_new (w : World) h e :
  class_of self = AssigneeAndStatusExecutor sm rm →
  assigned_to bug ≠ Some "nobody@mozilla.org" →
  is_new = true ∨ "assigned_to" ∈ default [] (changed_fields event) →
  let find := user_find_by_user_string (assigned_to bug) in
  w h find = Raises e →
  run (update_issue self bug event key is_new) w h = (h ++ [find], Raises e).
Proof.
intros Hclass Hother Hfires find Hfind.
rewrite (run_update_issue _ _ _ _ _ _ _ _ _ Hclass). cbv zeta.
unfold update_assignee.
apply opt_eq_str_false in Hother.
rewrite (assignee_rule_fires _ _ Hfires), Hother.
rewrite run_bind. run_remote. fold find. rewrite Hfind. reflexivity.
Qed.

(** X14: when the lookup finds one account that has no [accountId], the
    hook raises [KeyError] after the lookup: the assignee is neither set nor
    cleared, and the status rule is not run. *)
Theorem account_without_id_raises
    self sm rm bug event key is_new (w : World) h account :
  class_of self = AssigneeAndStatusExecutor sm rm →
  assigned_to bug ≠ Some "nobody@mozilla.org" →
  is_new = true ∨ "assigned_to" ∈ default [] (changed_fields event) →
  let find := user_find_by_user_string (assigned_to bug) in
  w h find = Returns (PyList [PyDict account]) →
  dict_get "accountId" account = None →
  run (update_issue self bug event key is_new) w h
  = (h ++ [find], Raises (KeyError (PyStr "accountId"))).
Proof.
intros Hclass Hother Hfires find Hfind Hid.
rewrite (run_update_issue _ _ _ _ _ _ _ _ _ Hclass). cbv zeta.
unfold update_assignee.
apply opt_eq_str_false in Hother.
rewrite (assignee_rule_fires _ _ Hfires), Hother.
rewrite run_bind. run_remote. fold find. rewrite Hfind.
simpl. rewrite run_ret_bind. simpl.
rewrite run_try, run_ret_bind. simpl. rewrite Hid. reflexivity.
Qed.

(** X15: when the status rule runs and the update of the resolution
    raises, the rule raises that exception and the status of the issue is
    not changed. *)
Theorem failed_resolution_stops sm rm bug changed key is_new (w : World) h r e :
  is_new = true ∨ "status" ∈ changed ∨ "resolution" ∈ changed →
  map_get rm (resolution bug) = Some r →
  r ≠ "" →
  let set := update_issue_field key [("resolution", PyStr r)] in
  w h set = Raises e →
  run (update_status sm rm bug changed key is_new) w h = (h ++ [set], Raises e).
Proof.
intros Hfires Hr Hne set Hset.
rewrite (run_update_status _ _ _ _ _ _ _ _ Hfires). cbv zeta.
apply str_truthy_true in Hne. rewrite Hr, Hne. fold set. rewrite Hset.
reflexivity.
Qed.

(** X16: an executor made by [init] of the subclass without a status map
    and without a resolution map (or with empty ones) never updates the
    resolution or the status: its hook is the assignee rule alone. *)
Theorem init_without_maps
    status_map resolution_map project_key kwargs bug event key is_new (w : World) h :
  status_map = None ∨ status_map = Some ∅ →
  resolution_map = None ∨ resolution_map = Some ∅ →
  ∃ self,
    default_with_assignee_and_status.init
      status_map resolution_map (Some project_key) kwargs = Returns self
    ∧ jira_project_key self = project_key
    ∧ run (update_issue self bug event key is_new) w h
      = run (update_assignee bug (default [] (changed_fields event)) key is_new) w h.
Proof.
intros Hsm Hrm. eexists. split; [reflexivity|]. split; [reflexivity|].
assert (Hs : default ∅ status_map = (∅ : gmap string string))
  by (destruct Hsm as [-> | ->]; reflexivity).
assert (Hr : default ∅ resolution_map = (∅ : gmap string string))
  by (destruct Hrm as [-> | ->]; reflexivity).
unfold update_issue, DefaultExecutor_init. simpl class_of. cbv zeta.
rewrite Hs, Hr, run_bind.
destruct (run (update_assignee _ _ _ _) w h) as [h' [[]|e]]; [|reflexivity].
apply run_update_status_miss.
- destruct (resolution bug); reflexivity.
- destruct (py_or _ _); reflexivity.
Qed.

(** X17: [init] of the default action makes a [DefaultExecutor] that syncs
    the labels unless the flag is given a false value: the update payload
    has the labels of the bug when [sync_whiteboard_labels] is left out or
    true, and no ["labels"] key otherwise; other keyword arguments change
    nothing, and the hook of this executor makes no call. *)
Theorem init_label_default
    project_key flag kwargs bug event key is_new (w : World) h :
  let self := default.init project_key flag kwargs in
  jira_project_key self = project_key
  ∧ dict_get "labels" (jira_fields self bug)
    = (if truthy (default (PyBool true) flag)
       then Some (PyList (map PyStr (get_jira_labels bug)))
       else None)
  ∧ run (update_issue self bug event key is_new) w h = (h, Returns tt).
Proof.
intros self. split; [reflexivity|]. split; [|reflexivity].
unfold jira_fields, self, default.init, DefaultExecutor_init.
simpl sync_whiteboard_labels. simpl dict_get.
destruct (truthy (default (PyBool true) flag)); reflexivity.
Qed.

(** X18: when the user lookup answers something that has no length
    ([None], a boolean, a number), the hook raises [TypeError] after the
    lookup: the assignee is neither set nor cleared, and the status rule is
    not run. *)
Theorem lookup_without_length_raises
    self sm rm bug event key is_new (w : World) h users :
  class_of self = AssigneeAndStatusExecutor sm rm →
  assigned_to bug ≠ Some "nobody@mozilla.org" →
  is_new = true ∨ "assigned_to" ∈ default [] (changed_fields event) →
  let find := user_find_by_user_string (assigned_to bug) in
  w h find = Returns users →
  (∀ l, users ≠ PyList l) → (∀ d, users ≠ PyDict d) → (∀ s, users ≠ PyStr s) →
  run (update_issue self bug event key is_new) w h = (h ++ [find], Raises TypeError).
Proof.
intros Hclass Hother Hfires find Hfind Hlist Hdict Hstr.
rewrite (run_update_issue _ _ _ _ _ _ _ _ _ Hclass). cbv zeta.
unfold update_assignee.
apply opt_eq_str_false in Hother.
rewrite (assignee_rule_fires _ _ Hfires), Hother.
rewrite run_bind. run_remote. fold find. rewrite Hfind.
destruct users as [| | |s|l|d]; try reflexivity.
- destruct (Hstr s eq_refl).
- destruct (Hlist l eq_refl).
- destruct (Hdict d eq_refl).
Qed.

(** X19: for a new issue, an assignee that the lookup does not resolve to
    exactly one account is left alone: the assignee rule makes the lookup
    and no other call, and returns normally. *)
Theorem new_issue_assignee_unresolved bug changed key (w : World) h users :
  assigned_to bug ≠ Some "nobody@mozilla.org" →
  let find := user_find_by_user_string (assigned_to bug) in
  w h find = Returns (PyList users) →
  List.length users ≠ 1 →
  run (update_assignee bug changed key true) w h = (h ++ [find], Returns tt).
Proof.
intros Hother find Hfind Hlen.
unfold update_assignee. apply opt_eq_str_false in Hother.
simpl orb. cbv iota. rewrite Hother.
rewrite run_bind. run_remote. fold find. rewrite Hfind.
simpl. rewrite run_ret_bind.
destruct (Nat.eqb_spec (List.length users) 1) as [Heq|_]; [contradiction|].
reflexivity.
Qed.

End Hook.

(** ** The further properties on the sample inputs *)

Section FurtherSampleRuns.
Import Sample.

Lemma comment_posted_sample :
  run (call_ default_executor linked_commented_bug comment_event)
    (quiet_world linked_commented_bug (PyDict created)) []
  = ([issue_add_comment (PyStr "JBI-1") "me too"],
     Returns (true, [("jira_response", PyDict [("id", PyStr "10000")])])).
Proof.
refine (comment_posted default_executor linked_commented_bug comment_event "JBI-1"
          {| body := Some "me too"; comment_id := Some 7%Z |}
          (quiet_world linked_commented_bug (PyDict created)) []
          eq_refl eq_refl _ eq_refl).
discriminate.
Defined.

Lemma linked_bug_only_updated_sample :
  emits (is_update_call (PyStr "JBI-1")) (call_ status_executor linked_bug bug_event).
Proof.
refine (linked_bug_only_updated status_executor linked_bug bug_event "JBI-1" eq_refl _).
discriminate.
Defined.

Lemma failed_update_stops_sample :
  run (bug_create_or_update status_executor linked_bug bug_event)
    (offline_jira_world linked_bug (PyDict created)) []
  = ([update_issue_field (PyStr "JBI-1") [("summary", PyStr "Crash on startup")]],
     Raises (IOError "Connection refused")).
Proof.
refine (failed_update_stops status_executor linked_bug bug_event "JBI-1"
          (offline_jira_world linked_bug (PyDict created)) []
          (IOError "Connection refused") eq_refl _ eq_refl).
discriminate.
Defined.

Lemma default_update_trace_sample :
  ∃ rs,
    List.length rs
    = List.length (map_changes_as_comments linked_bug bug_event None None)
    ∧ run (call_ default_executor linked_bug bug_event)
        (quiet_world linked_bug (PyDict created)) []
      = ([] ++ update_issue_field (PyStr "JBI-1") (jira_fields default_executor linked_bug)
            :: map (issue_add_comment (PyStr "JBI-1"))
                 (map_changes_as_comments linked_bug bug_event None None),
         Returns (true, [("jira_responses", PyList [PyNone; PyList rs])])).
Proof.
refine (default_update_trace default_executor linked_bug bug_event "JBI-1"
          (quiet_world linked_bug (PyDict created)) [] PyNone
          eq_refl eq_refl eq_refl _ eq_refl _).
- discriminate.
- intros h' c. eexists. reflexivity.
Defined.

Lemma new_issue_linked_sample :
  run (call_ default_executor unlinked_bug bug_event)
    (quiet_world relinked_bug (PyList [PyDict created])) []
  = ([get_comments 654321;
      create_issue (creation_fields default_executor unlinked_bug "Steps to reproduce");
      get_bug 654321;
      update_bug 654321 ["https://jira.example.com/browse/JBI-2"];
      create_or_update_issue_remote_links (PyStr "JBI-2")
        "https://bugzilla.example.com/show_bug.cgi?id=654321"
        "https://bugzilla.example.com/show_bug.cgi?id=654321"],
     Returns (true, [("bugzilla_response", PyDict [("bugs", PyList [])]);
                     ("jira_response", PyDict [("id", PyInt 10000)])])).
Proof.
refine (new_issue_linked default_executor unlinked_bug bug_event
          (quiet_world relinked_bug (PyList [PyDict created])) []
          first_comment [] (PyList [PyDict created]) created relinked_bug
          (PyDict [("bugs", PyList [])]) (PyDict [("id", PyInt 10000)])
          eq_refl eq_refl eq_refl eq_refl (or_intror (ex_intro _ [] eq_refl))
          _ eq_refl _ eq_refl eq_refl).
- intros element v [-> | ->] Hget; discriminate Hget.
- intros k1 Hk1. injection Hk1 as <-. reflexivity.
Defined.

Lemma failed_link_stops_sample :
  run (call_ default_executor unlinked_bug bug_event)
    (readonly_bugzilla_world unlinked_bug (PyDict created)) []
  = ([get_comments 654321;
      create_issue (creation_fields default_executor unlinked_bug "Steps to reproduce");
      get_bug 654321;
      update_bug 654321 ["https://jira.example.com/browse/JBI-2"]],
     Raises (OtherError "BugzillaError")).
Proof.
refine (proj1 (failed_link_stops default_executor unlinked_bug bug_event
                 (readonly_bugzilla_world unlinked_bug (PyDict created)) []
                 first_comment [] (PyDict created) created unlinked_bug
                 eq_refl eq_refl eq_refl eq_refl (or_introl eq_refl)
                 eq_refl eq_refl _)
          (OtherError "BugzillaError") eq_refl).
intros k1 Hk1. discriminate Hk1.
Defined.

Lemma no_comment_no_issue_sample :
  run (call_ default_executor unlinked_bug bug_event)
    (uncommented_world unlinked_bug (PyDict created)) []
  = ([get_comments 654321], Raises IndexError).
Proof.
exact (no_comment_no_issue default_executor unlinked_bug bug_event
         (uncommented_world unlinked_bug (PyDict created)) []
         eq_refl eq_refl eq_refl).
Defined.

Lemma unreadable_create_response_sample :
  run (create_and_link_issue default_executor unlinked_bug bug_event)
    (quiet_world unlinked_bug PyNone) []
  = ([get_comments 654321;
      create_issue (creation_fields default_executor unlinked_bug "Steps to reproduce")],
     Raises AttributeError).
Proof.
refine (proj1 (proj2 (unreadable_create_response default_executor unlinked_bug
                        bug_event (quiet_world unlinked_bug PyNone) []
                        first_comment [] PyNone eq_refl eq_refl)) _ _);
  intros ?; discriminate.
Defined.

(** The five calls of the hook are reached. *)
Lemma hook_reaches_five_calls :
  List.length
    (run (update_issue status_executor linked_bug bug_event (PyStr "JBI-1") false)
       (flaky_world linked_bug (PyDict created)) []).1
  = 5%nat.
Proof. reflexivity. Qed.

Lemma irrelevant_change_ignored_sample :
  run (update_issue status_executor linked_bug summary_event (PyStr "JBI-1") false)
    (quiet_world linked_bug (PyDict created)) []
  = ([], Returns tt).
Proof.
refine (irrelevant_change_ignored status_executor status_names resolution_names
          linked_bug summary_event (PyStr "JBI-1")
          (quiet_world linked_bug (PyDict created)) [] eq_refl _).
intros field Hin. apply list_elem_of_In in Hin.
destruct Hin as [<- | []]. repeat split; discriminate.
Defined.

Lemma failed_lookup_raises_sample :
  run (update_issue status_executor linked_bug bug_event (PyStr "JBI-1") false)
    (offline_jira_world linked_bug (PyDict created)) []
  = ([user_find_by_user_string (Some "dev@example.com")],
     Raises (IOError "Connection refused")).
Proof.
refine (failed_lookup_raises status_executor status_names resolution_names
          linked_bug bug_event (PyStr "JBI-1") false
          (offline_jira_world linked_bug (PyDict created)) []
          (IOError "Connection refused") eq_refl _ _ eq_refl).
- discriminate.
- right. apply list_elem_of_In. simpl. auto.
Defined.

Lemma account_without_id_raises_sample :
  run (update_issue status_executor linked_bug bug_event (PyStr "JBI-1") false)
    (anonymous_user_world linked_bug (PyDict created)) []
  = ([user_find_by_user_string (Some "dev@example.com")],
     Raises (KeyError (PyStr "accountId"))).
Proof.
refine (account_without_id_raises status_executor status_names resolution_names
          linked_bug bug_event (PyStr "JBI-1") false
          (anonymous_user_world linked_bug (PyDict created)) []
          [("displayName", PyStr "Dev")] eq_refl _ _ eq_refl eq_refl).
- discriminate.
- right. apply list_elem_of_In. simpl. auto.
Defined.

Lemma failed_resolution_stops_sample :
  run (update_status status_names resolution_names linked_bug ["resolution"]
         (PyStr "JBI-1") false)
    (offline_jira_world linked_bug (PyDict created)) []
  = ([update_issue_field (PyStr "JBI-1") [("resolution", PyStr "Done")]],
     Raises (IOError "Connection refused")).
Proof.
refine (failed_resolution_stops status_names resolution_names linked_bug
          ["resolution"] (PyStr "JBI-1") false
          (offline_jira_world linked_bug (PyDict created)) []
          "Done" (IOError "Connection refused") _ eq_refl _ eq_refl).
- right. right. constructor.
- discriminate.
Defined.

Lemma init_without_maps_sample :
  ∃ self,
    default_with_assignee_and_status.init None (Some ∅) (Some "JBI") [] = Returns self
    ∧ jira_project_key self = "JBI"
    ∧ run (update_issue self linked_bug bug_event (PyStr "JBI-1") true)
        (quiet_world linked_bug (PyDict created)) []
      = run (update_assignee linked_bug (default [] (changed_fields bug_event))
               (PyStr "JBI-1") true)
          (quiet_world linked_bug (PyDict created)) [].
Proof.
exact (init_without_maps None (Some ∅) "JBI" [] linked_bug bug_event (PyStr "JBI-1")
         true (quiet_world linked_bug (PyDict created)) []
         (or_introl eq_refl) (or_intror eq_refl)).
Defined.

Lemma lookup_without_length_raises_sample :
  run (update_issue status_executor linked_bug bug_event (PyStr "JBI-1") false)
    (silent_directory_world linked_bug (PyDict created)) []
  = ([user_find_by_user_string (Some "dev@example.com")], Raises TypeError).
Proof.
refine (lookup_without_length_raises status_executor status_names resolution_names
          linked_bug bug_event (PyStr "JBI-1") false
          (silent_directory_world linked_bug (PyDict created)) [] PyNone
          eq_refl _ _ eq_refl _ _ _); try (intros ?; discriminate).
right. apply list_elem_of_In. simpl. auto.
Defined.

Lemma new_issue_assignee_unresolved_sample :
  run (update_assignee linked_bug [] (PyStr "JBI-2") true)
    (unknown_user_world linked_bug (PyDict created)) []
  = ([user_find_by_user_string (Some "dev@example.com")], Returns tt).
Proof.
refine (new_issue_assignee_unresolved linked_bug [] (PyStr "JBI-2")
          (unknown_user_world linked_bug (PyDict created)) [] [] _ eq_refl _);
  discriminate.
Defined.

End FurtherSampleRuns.
